(** * gestion-quarts: the shift-change WSGI application [app.py]

    A shallow embedding of [app.py] and of the parts of the Python standard
    library and of SQLite it calls, followed by the properties of the
    application that its specification states.

    Conventions of the embedding.
    - Python [str] is Stdlib [string]; one [ascii] stands for one character
      (a code point below 256).  Character classes (decimal digits, white
      space, ASCII letters) are the Unicode ones restricted to that range.
      Text holds no NUL character and stays within the length limits of
      SQLite.
    - A raised exception is the [Raise] case of [result]; it propagates
      through the monadic bind, as an uncaught exception does.
    - A Python [float] holding a duration is an exact rational [Q].  A
      difference of two clock times is a whole number of minutes [m], so that
      [m / 60 * 100] never lies half-way between two integers: rounding the
      binary float and rounding the rational pick the same hundredth.
    - The SQLite file is a value of type [Database], threaded through
      [application]; [commit] and [close] leave it as it is.
    - [urllib.parse.unquote] and the files of the template directory are
      parameters of the handler. *)

From Stdlib Require Import ZArith QArith Qround Qabs Lqa String Ascii List Lia.
From stdpp Require Import gmap strings sorting.

Local Open Scope Z_scope.

(** ** Exceptions *)

Inductive exn : Set :=
| ValueError
| TypeError
| FileNotFoundError
| OperationalError.

Inductive result (A : Type) : Type :=
| Ok (a : A)
| Raise (e : exn).
Arguments Ok {A} a.
Arguments Raise {A} e.

#[global] Instance result_ret : MRet result := λ A a, Ok a.
#[global] Instance result_bind : MBind result :=
  λ A B f m, match m with Ok a => f a | Raise e => Raise e end.
#[global] Instance result_fmap : FMap result :=
  λ A B f m, match m with Ok a => Ok (f a) | Raise e => Raise e end.

(** ** Python [str] methods *)

Module str.

Definition code (c : ascii) : Z := Z.of_N (N_of_ascii c).

(** [c.isdigit()] and [int(c)] for one decimal digit. *)
Definition digit (c : ascii) : option Z :=
  let n := code c in
  if (48 <=? n) && (n <=? 57) then Some (n - 48) else None.

(** [str.isspace] on one character: TAB, LF, VT, FF, CR, FS, GS, RS, US,
    SPACE, NEL and NBSP. *)
Definition isspace (c : ascii) : bool :=
  let n := code c in
  ((9 <=? n) && (n <=? 13)) || ((28 <=? n) && (n <=? 32))
  || (n =? 133) || (n =? 160).

Fixpoint lstrip (s : string) : string :=
  match s with
  | EmptyString => EmptyString
  | String c s' => if isspace c then lstrip s' else s
  end.

(** [rstrip] keeps a character when it is no white space or when something
    is left after it. *)
Fixpoint rstrip (s : string) : string :=
  match s with
  | EmptyString => EmptyString
  | String c s' =>
      match rstrip s' with
      | EmptyString => if isspace c then EmptyString else String c EmptyString
      | r => String c r
      end
  end.

(** [s.strip()] *)
Definition strip (s : string) : string := rstrip (lstrip s).

(** [s.upper()] on the ASCII letters. *)
Definition upper_char (c : ascii) : ascii :=
  let n := code c in
  if (97 <=? n) && (n <=? 122) then ascii_of_N (Z.to_N (n - 32)) else c.

Fixpoint upper (s : string) : string :=
  match s with
  | EmptyString => EmptyString
  | String c s' => String (upper_char c) (upper s')
  end.

(** [s.split(sep)] for a one-character separator: always at least one
    piece. *)
Fixpoint split (sep : ascii) (s : string) : list string :=
  match s with
  | EmptyString => [EmptyString]
  | String c s' =>
      if Ascii.eqb c sep then EmptyString :: split sep s'
      else match split sep s' with
           | p :: ps => String c p :: ps
           | [] => [String c EmptyString]
           end
  end.

(** [s.split(sep, 1)]: the text before the first separator and, when there
    is one, the text after it. *)
Fixpoint split1 (sep : ascii) (s : string) : string * option string :=
  match s with
  | EmptyString => (EmptyString, None)
  | String c s' =>
      if Ascii.eqb c sep then (EmptyString, Some s')
      else let '(a, b) := split1 sep s' in (String c a, b)
  end.

(** [s.replace(old, new)] for a one-character [old]. *)
Fixpoint replace_char (old : ascii) (new : ascii) (s : string) : string :=
  match s with
  | EmptyString => EmptyString
  | String c s' =>
      String (if Ascii.eqb c old then new else c) (replace_char old new s')
  end.

(** [s.replace(old, new)]: the occurrences of [old] are found from the
    left and do not overlap.  [skip] counts the characters of an occurrence
    still to pass over. *)
Fixpoint replace_from (old new : string) (skip : nat) (s : string) : string :=
  match s with
  | EmptyString => EmptyString
  | String c s' =>
      match skip with
      | S k => replace_from old new k s'
      | O =>
          if String.prefix old s
          then new +:+ replace_from old new (String.length old - 1) s'
          else String c (replace_from old new 0 s')
      end
  end.

Fixpoint interleave (new : string) (s : string) : string :=
  match s with
  | EmptyString => new
  | String c s' => new +:+ String c (interleave new s')
  end.

Definition replace (old new : string) (s : string) : string :=
  match old with
  | EmptyString => interleave new s
  | _ => replace_from old new 0 s
  end.

(** [s.count(sub)], with the scan of [replace]. *)
Fixpoint count_from (sub : string) (skip : nat) (s : string) : nat :=
  match s with
  | EmptyString => O
  | String c s' =>
      match skip with
      | S k => count_from sub k s'
      | O =>
          if String.prefix sub s
          then S (count_from sub (String.length sub - 1) s')
          else count_from sub 0 s'
      end
  end.

Definition count (sub : string) (s : string) : nat :=
  match sub with
  | EmptyString => S (String.length s)
  | _ => count_from sub 0 s
  end.

End str.

(** ** [datetime] and [timedelta] *)

Module timedelta.

(** Normalised as Python does: [0 <= seconds < 86400]. *)
Record t : Set := mk { days : Z; seconds : Z }.

Definition make (d s : Z) : t :=
  {| days := d + s `div` 86400; seconds := s `mod` 86400 |}.

(** [delta.total_seconds()]: no microseconds are ever set here. *)
Definition total_seconds (d : t) : Q := inject_Z (days d * 86400 + seconds d).

End timedelta.

Module datetime.

Record t : Set :=
  mk { year : Z; month : Z; day : Z; hour : Z; minute : Z; second : Z }.

Definition is_leap (y : Z) : bool :=
  (y `mod` 4 =? 0) && (negb (y `mod` 100 =? 0) || (y `mod` 400 =? 0)).

Definition days_in_month (y m : Z) : Z :=
  if (m =? 2) && is_leap y then 29
  else nth (Z.to_nat m) [0; 31; 28; 31; 30; 31; 30; 31; 31; 30; 31; 30; 31] 0.

Definition days_before_year (y : Z) : Z :=
  let y' := y - 1 in y' * 365 + y' `div` 4 - y' `div` 100 + y' `div` 400.

Definition days_before_month (y m : Z) : Z :=
  nth (Z.to_nat m) [0; 0; 31; 59; 90; 120; 151; 181; 212; 243; 273; 304; 334] 0
  + (if (2 <? m) && is_leap y then 1 else 0).

(** [dt.toordinal()] *)
Definition toordinal (dt : t) : Z :=
  days_before_year (year dt) + days_before_month (year dt) (month dt) + day dt.

(** The regular expression that [strptime] builds for ["%H:%M"] is
    [(?P<H>2[0-3]|[0-1]\d|\d):(?P<M>[0-5]\d|\d)].  A group tries its
    alternatives from the left and hands what it read, and the rest of the
    text, to the continuation [k]; when [k] fails the next alternative is
    tried. *)
Definition orelse {A} (x y : option A) : option A :=
  match x with Some _ => x | None => y end.

Definition two_chars {A} (p1 p2 : Z → bool) (s : string)
    (k : Z → string → option A) : option A :=
  match s with
  | String c1 (String c2 rest) =>
      match str.digit c1, str.digit c2 with
      | Some d1, Some d2 => if p1 d1 && p2 d2 then k (10 * d1 + d2) rest else None
      | _, _ => None
      end
  | _ => None
  end.

Definition one_char {A} (s : string) (k : Z → string → option A) : option A :=
  match s with
  | String c1 rest =>
      match str.digit c1 with Some d1 => k d1 rest | None => None end
  | _ => None
  end.

Definition group_H {A} (s : string) (k : Z → string → option A) : option A :=
  orelse (two_chars (λ d, d =? 2) (λ d, d <=? 3) s k)
    (orelse (two_chars (λ d, d <=? 1) (λ _, true) s k) (one_char s k)).

Definition group_M {A} (s : string) (k : Z → string → option A) : option A :=
  orelse (two_chars (λ d, d <=? 5) (λ _, true) s k) (one_char s k).

Definition colon {A} (s : string) (k : string → option A) : option A :=
  match s with
  | String c rest => if Ascii.eqb c ":" then k rest else None
  | _ => None
  end.

(** [re.match]: hour, minute and the text left after the match. *)
Definition match_H_M (s : string) : option (Z * Z * string) :=
  group_H s (λ h s1, colon s1 (λ s2, group_M s2 (λ m s3, Some (h, m, s3)))).

(** [datetime.strptime(data_string, "%H:%M")]: [ValueError] when the
    expression does not match or when text remains after the match; the
    date defaults to 1900-01-01. *)
Definition strptime_H_M (data_string : string) : result t :=
  match match_H_M data_string with
  | Some (h, m, EmptyString) => Ok (mk 1900 1 1 h m 0)
  | Some (_, _, String _ _) => Raise ValueError
  | None => Raise ValueError
  end.

(** [dt.replace(day=d)] *)
Definition replace_day (dt : t) (d : Z) : result t :=
  if (1 <=? d) && (d <=? days_in_month (year dt) (month dt))
  then Ok (mk (year dt) (month dt) d (hour dt) (minute dt) (second dt))
  else Raise ValueError.

Definition fields (dt : t) : list Z :=
  [year dt; month dt; day dt; hour dt; minute dt; second dt].

Fixpoint cmp (a b : list Z) : comparison :=
  match a, b with
  | x :: a', y :: b' => match x ?= y with Eq => cmp a' b' | c => c end
  | [], [] => Eq
  | [], _ :: _ => Lt
  | _ :: _, [] => Gt
  end.

(** [a <= b] *)
Definition le (a b : t) : bool :=
  match cmp (fields a) (fields b) with Gt => false | _ => true end.

(** [a - b] *)
Definition sub (a b : t) : timedelta.t :=
  let secs1 := second a + minute a * 60 + hour a * 3600 in
  let secs2 := second b + minute b * 60 + hour b * 3600 in
  timedelta.make (toordinal a - toordinal b) (secs1 - secs2).

End datetime.

(** ** [float] *)

(** [round(x)] to the nearest integer, a tie going to the even one. *)
Definition round_half_even (x : Q) : Z :=
  let f := Qfloor x in
  match (x - inject_Z f ?= 1 # 2)%Q with
  | Lt => f
  | Gt => f + 1
  | Eq => if Z.even f then f else f + 1
  end.

(** [round(x, 2)], in lowest terms. *)
Definition round2 (x : Q) : Q :=
  Qred (inject_Z (round_half_even (x * 100)) / 100).

(** ** [compute_total_hours] *)

Definition compute_total_hours (start_time end_time : string) : result Q :=
  start ← datetime.strptime_H_M start_time;
  end_ ← datetime.strptime_H_M end_time;
  end_ ← (if datetime.le end_ start
          then datetime.replace_day end_ (datetime.day end_ + 1)
          else Ok end_);
  let delta := datetime.sub end_ start in
  Ok (round2 (timedelta.total_seconds delta / 3600)).

(** The character of a decimal digit. *)
Definition digit_char (d : Z) : ascii := ascii_of_N (Z.to_N (48 + d)).

Fixpoint digits_of (fuel : nat) (n : Z) (acc : string) : string :=
  match fuel with
  | O => acc
  | S fuel' =>
      let acc' := String (digit_char (n `mod` 10)) acc in
      if n `div` 10 =? 0 then acc' else digits_of fuel' (n `div` 10) acc'
  end.

(** [str(n)] for an integer [0 <= n]. *)
Definition nat_str (n : Z) : string := digits_of (S (Z.to_nat n)) n "".

(** [str(x)] for a float [x] that holds a whole number of hundredths, as
    [round(_, 2)] returns: the shortest decimal that reads back as [x], with
    one fractional digit at least. *)
Definition float_str (x : Q) : string :=
  let k := round_half_even (x * 100) in
  let a := Z.abs k in
  let frac := a `mod` 100 in
  (if k <? 0 then "-" else "")
  +:+ nat_str (a `div` 100) +:+ "."
  +:+ String (digit_char (frac `div` 10))
        (if frac `mod` 10 =? 0 then "" else String (digit_char (frac `mod` 10)) "").

(** [s.encode("utf-8")] for code points below 256. *)
Definition encode_char (c : ascii) : list Byte.byte :=
  let n := N_of_ascii c in
  if (n <? 128)%N then [byte_of_ascii c]
  else [byte_of_ascii (ascii_of_N (192 + n / 64));
        byte_of_ascii (ascii_of_N (128 + n mod 64))].

Fixpoint encode (s : string) : list Byte.byte :=
  match s with
  | EmptyString => []
  | String c s' => encode_char c ++ encode s'
  end.

(** ** The SQLite table [shift_changes] *)

Module Row.
(** One row, with the columns of the [CREATE TABLE] statement.  Every
    insertion binds a [str] to [comment], so the column holds text. *)
Record t : Set := mk {
  id : Z;
  employee_name : string;
  date : string;
  start_time : string;
  end_time : string;
  rotation : string;
  total_hours : Q;
  comment : string
}.
End Row.

(** The table: its rows in rowid order and the largest rowid handed out so
    far, which [AUTOINCREMENT] keeps in [sqlite_sequence]. *)
Record Table : Set := { rows : list Row.t; sequence : Z }.

(** The database file; [None] before the table exists. *)
Definition Database : Set := option Table.

Definition rows_of (db : Database) : list Row.t :=
  match db with Some t => rows t | None => [] end.

Module sqlite3.

(** [sqlite3Tolower] *)
Definition tolower (c : ascii) : ascii :=
  let n := str.code c in
  if (65 <=? n) && (n <=? 90) then ascii_of_N (Z.to_N (n + 32)) else c.

(** Two characters agree for [LIKE] when they are equal, or when both are
    ASCII and equal once folded to lower case. *)
Definition like_char (c c2 : ascii) : bool :=
  Ascii.eqb c c2
  || (Ascii.eqb (tolower c) (tolower c2)
      && (str.code c <? 128) && (str.code c2 <? 128)).

(** [s LIKE pattern] without [ESCAPE]: [%] stands for any run of
    characters, [_] for any one character. *)
Fixpoint like (pattern : string) : string → bool :=
  match pattern with
  | EmptyString => λ s, match s with EmptyString => true | _ => false end
  | String c p' =>
      if Ascii.eqb c "%" then
        fix star (s : string) : bool :=
          like p' s || match s with
                       | EmptyString => false
                       | String _ s' => star s'
                       end
      else if Ascii.eqb c "_" then
        λ s, match s with EmptyString => false | String _ s' => like p' s' end
      else
        λ s, match s with
             | EmptyString => false
             | String c2 s' => like_char c c2 && like p' s'
             end
  end.

(** The conditions that [application] appends to [WHERE 1=1]. *)
Inductive cond : Set :=
| employee_name_LIKE (param : string)
| date_EQ (param : string).

Definition holds (c : cond) (r : Row.t) : bool :=
  match c with
  | employee_name_LIKE p => like p (Row.employee_name r)
  | date_EQ d => String.eqb (Row.date r) d
  end.

(** [ORDER BY date DESC, start_time ASC], text compared byte-wise. *)
Definition order_by (r1 r2 : Row.t) : Prop :=
  match String.compare (Row.date r1) (Row.date r2) with
  | Gt => True
  | Lt => False
  | Eq => String.leb (Row.start_time r1) (Row.start_time r2) = true
  end.

#[global] Instance order_by_dec : RelDecision order_by.
Proof.
  intros r1 r2. unfold order_by.
  destruct (String.compare (Row.date r1) (Row.date r2)); apply _.
Defined.

(** [CREATE TABLE IF NOT EXISTS shift_changes (...)] *)
Definition create_table_if_not_exists (db : Database) : Database :=
  match db with
  | Some t => Some t
  | None => Some {| rows := []; sequence := 0 |}
  end.

Definition max_rowid (l : list Row.t) : Z :=
  foldr (λ r m, Z.max (Row.id r) m) 0 l.

(** [INSERT INTO shift_changes (employee_name, ..., comment) VALUES (?, ...)]:
    the new rowid is one more than the largest that ever existed. *)
Definition insert
    (employee_name date start_time end_time rotation : string)
    (total_hours : Q) (comment : string) (db : Database) : result Database :=
  match db with
  | None => Raise OperationalError
  | Some t =>
      let rowid := Z.max (sequence t) (max_rowid (rows t)) + 1 in
      let row := Row.mk rowid employee_name date start_time end_time
                   rotation total_hours comment in
      Ok (Some {| rows := rows t ++ [row]; sequence := rowid |})
  end.

(** [SELECT * FROM shift_changes WHERE 1=1 AND ... ORDER BY date DESC,
    start_time ASC], then [fetchall()]. *)
Definition select (query : list cond) (db : Database) : result (list Row.t) :=
  match db with
  | None => Raise OperationalError
  | Some t =>
      Ok (merge_sort order_by
            (filter (λ r, forallb (λ c, holds c r) query = true) (rows t)))
  end.

End sqlite3.

(** ** [init_db] *)

Definition init_db (db : Database) : Database :=
  sqlite3.create_table_if_not_exists db.

(** ** The request handler *)

(** What [application] reads from the WSGI [environ].  [request_body] is the
    text that [parse_post_data] obtains from [wsgi.input]: the first
    [CONTENT_LENGTH] bytes, decoded as UTF-8. *)
Record Environ : Set := {
  PATH_INFO : option string;
  REQUEST_METHOD : option string;
  request_body : string
}.

(** What [application] answers: the arguments of [start_response] and the
    bytes of the body, the chunks of the returned list put together. *)
Record Response : Set := {
  status : string;
  headers : list (string * string);
  body : list Byte.byte
}.

(** A value of the [context] of [render_template]: text, or the list of rows
    under the key [results]. *)
Inductive value : Set :=
| VStr (s : string)
| VList (l : list Row.t).

(** [d.get(key, default)] *)
Definition get {V} (d : gmap string V) (key : string) (dflt : V) : V :=
  default dflt (d !! key).

(** [key in context] and [context[key]] for the insertion-ordered
    [context]. *)
Fixpoint lookup_key (key : string) (context : list (string * value)) : option value :=
  match context with
  | [] => None
  | (k, v) :: context' => if String.eqb k key then Some v else lookup_key key context'
  end.

Definition td (x : string) : string := "<td>" +:+ x +:+ "</td>".

Definition no_records : string :=
  "<tr><td colspan='7'>Aucun enregistrement trouv" +:+ String "233" ".</td></tr>".

(** The body of the [for row in results] loop. *)
Definition add_row (rows_html : string) (row : Row.t) : string :=
  rows_html +:+
    ("<tr>"
     +:+ td (Row.employee_name row)
     +:+ td (Row.date row)
     +:+ td (Row.start_time row)
     +:+ td (Row.end_time row)
     +:+ td (Row.rotation row)
     +:+ td (float_str (Row.total_hours row))
     +:+ td (Row.comment row)
     +:+ "</tr>").

(** The body of the [for key, value in context.items()] loop. *)
Definition substitute (content : string) (kv : string * value) : string :=
  let '(key, value) := kv in
  let placeholder := "{{ " +:+ key +:+ " }}" in
  match value with
  | VStr v => str.replace placeholder v content
  | VList _ => content
  end.

(** The body of the loop of [urllib.parse.parse_qs]. *)
Definition add_pair (parsed_result : gmap string (list string))
    (p : string * string) : gmap string (list string) :=
  let '(name, value) := p in
  match parsed_result !! name with
  | Some l => <[name := l ++ [value]]> parsed_result
  | None => <[name := [value]]> parsed_result
  end.

Section App.

(** [urllib.parse.unquote]: percent-decoding.  Nothing is assumed of it. *)
Variable unquote : string → string.

(** The files of [TEMPLATES_DIR], by name. *)
Variable templates : string → option string.

(** The body of the loop of [urllib.parse.parse_qsl], with the defaults
    [keep_blank_values=False] and [strict_parsing=False]: the pairs that
    one piece of the query adds. *)
Definition parse_field (name_value : string) : list (string * string) :=
  match name_value with
  | EmptyString => []
  | _ =>
      match str.split1 "=" name_value with
      | (_, None) => []
      | (_, Some EmptyString) => []
      | (n, Some v) =>
          [(unquote (str.replace_char "+" " " n),
            unquote (str.replace_char "+" " " v))]
      end
  end.

Definition parse_qsl (qs : string) : list (string * string) :=
  let query_args := match qs with EmptyString => [] | _ => str.split "&" qs end in
  foldl (λ r name_value, r ++ parse_field name_value) [] query_args.

(** [urllib.parse.parse_qs] *)
Definition parse_qs (qs : string) : gmap string (list string) :=
  foldl add_pair ∅ (parse_qsl qs).

(** [parse_post_data]: [{k: v[0] for k, v in parse_qs(request_body).items()}].
    No list of [parse_qs] is empty ([parse_qs_nonempty]), so [v[0]]
    exists. *)
Definition parse_post_data (environ : Environ) : gmap string string :=
  (λ v : list string, default "" (v !! 0%nat)) <$> parse_qs (request_body environ).

(** [render_template] *)
Definition render_template (template_name : string)
    (context : option (list (string * value))) : result (list Byte.byte) :=
  content ← match templates template_name with
            | Some content => Ok content
            | None => Raise FileNotFoundError
            end;
  let context := default [] context in
  let content := foldl substitute content context in
  content ←
    match lookup_key "results" context with
    | Some (VList results) =>
        match results with
        | _ :: _ =>
            let rows_html := foldl add_row "" results in
            Ok (str.replace "{{ results_table }}" rows_html content)
        | [] => Ok (str.replace "{{ results_table }}" no_records content)
        end
    | Some (VStr EmptyString) =>
        Ok (str.replace "{{ results_table }}" no_records content)
    | Some (VStr (String _ _)) => Raise TypeError
    | None => Ok content
    end;
  Ok (encode content).

(** The [POST /] branch, after [init_db]. *)
Definition post_index (environ : Environ) (db : Database)
    : Database * result Response :=
  let form := parse_post_data environ in
  let employee_name := str.strip (get form "employee_name" "") in
  let date := get form "date" "" in
  let start_time := get form "start_time" "" in
  let end_time := get form "end_time" "" in
  let rotation := get form "rotation" "" in
  let comment := str.strip (get form "comment" "") in
  match compute_total_hours start_time end_time with
  | Raise e => (db, Raise e)
  | Ok total_hours =>
      match sqlite3.insert employee_name date start_time end_time rotation
              total_hours comment db with
      | Raise e => (db, Raise e)
      | Ok db' =>
          (db', Ok {| status := "303 See Other";
                      headers := [("Location", "/")];
                      body := [] |})
      end
  end.

(** The query of the [POST /search] branch: the value of [results]. *)
Definition search (environ : Environ) (db : Database) : result (list Row.t) :=
  let form := parse_post_data environ in
  let employee_name := str.strip (get form "employee_name" "") in
  let date := str.strip (get form "date" "") in
  let query := [] in
  let query :=
    match employee_name with
    | EmptyString => query
    | _ => query ++ [sqlite3.employee_name_LIKE ("%" +:+ employee_name +:+ "%")]
    end in
  let query :=
    match date with
    | EmptyString => query
    | _ => query ++ [sqlite3.date_EQ date]
    end in
  sqlite3.select query db.

Definition html (b : result (list Byte.byte)) : result Response :=
  b ← b;
  Ok {| status := "200 OK";
        headers := [("Content-Type", "text/html; charset=utf-8")];
        body := b |}.

(** [application]: the database before the request gives the database
    after it and the response, or the exception that ends the request. *)
Definition application (environ : Environ) (db : Database)
    : Database * result Response :=
  let path := default "/" (PATH_INFO environ) in
  let method := str.upper (default "GET" (REQUEST_METHOD environ)) in
  let db := init_db db in
  if String.eqb path "/" && (String.eqb method "GET" || String.eqb method "POST") then
    if String.eqb method "POST" then post_index environ db
    else (db, html (render_template "index.html" None))
  else if String.eqb path "/search"
          && (String.eqb method "GET" || String.eqb method "POST") then
    let results : result (option (list Row.t)) :=
      if String.eqb method "POST" then Some <$> search environ db
      else Ok None in
    match results with
    | Raise e => (db, Raise e)
    | Ok results =>
        (db, html (render_template "search.html"
                     (Some [("results", VList (default [] results))])))
    end
  else
    (db, Ok {| status := "404 Not Found";
               headers := [("Content-Type", "text/plain; charset=utf-8")];
               body := encode "404 Not Found" |}).

End App.

(** * The vocabulary of the properties *)

(** ** Clock times *)

(** The text [HH:MM] of an hour and a minute, two digits each. *)
Definition HH_MM (h m : Z) : string :=
  String (digit_char (h `div` 10)) (String (digit_char (h `mod` 10))
    (String ":" (String (digit_char (m `div` 10)) (String (digit_char (m `mod` 10)) "")))).

(** [int(ds)] for a text of one or two decimal digits. *)
Definition number (ds : string) : option Z :=
  match ds with
  | String c "" => str.digit c
  | String c1 (String c2 "") =>
      match str.digit c1, str.digit c2 with
      | Some d1, Some d2 => Some (10 * d1 + d2)
      | _, _ => None
      end
  | _ => None
  end.

(** The clock times that the format ["%H:%M"] stands for: an hour up to 23
    and a minute up to 59, of one or two digits each, with a colon between
    them.  [None] for any other text. *)
Definition clock_text (s : string) : option (Z * Z) :=
  match str.split1 ":" s with
  | (hs, Some ms) =>
      match number hs, number ms with
      | Some h, Some m => if (h <=? 23) && (m <=? 59) then Some (h, m) else None
      | _, _ => None
      end
  | (_, None) => None
  end.

(** The pattern [HH:MM] read to the letter: two digits of an hour up to 23,
    a colon, and two digits of a minute up to 59. *)
Definition is_HH_MM (s : string) : bool :=
  match s with
  | String h1 (String h2 (String c (String m1 (String m2 "")))) =>
      match str.digit h1, str.digit h2, str.digit m1, str.digit m2 with
      | Some a, Some b, Some d, Some e =>
          Ascii.eqb c ":" && (10 * a + b <=? 23) && (10 * d + e <=? 59)
      | _, _, _, _ => false
      end
  | _ => false
  end.

(** Seconds since midnight. *)
Definition clock (dt : datetime.t) : Z :=
  datetime.second dt + datetime.minute dt * 60 + datetime.hour dt * 3600.

(** The elapsed seconds of the specification: the difference of the two
    clock times when the end is later, and the difference to the same clock
    time one day later otherwise. *)
Definition elapsed (start end_ : datetime.t) : Z :=
  if clock start <? clock end_ then clock end_ - clock start
  else clock end_ + 86400 - clock start.

(** ** Requests and reachable databases *)

Definition path_of (environ : Environ) : string :=
  default "/" (PATH_INFO environ).

Definition method_of (environ : Environ) : string :=
  str.upper (default "GET" (REQUEST_METHOD environ)).

(** The states of the database that requests can produce, from the moment
    the file does not exist yet. *)
Inductive reachable (unquote : string → string) (templates : string → option string)
  : Database → Prop :=
| reachable_init : reachable unquote templates None
| reachable_step environ db :
    reachable unquote templates db →
    reachable unquote templates (application unquote templates environ db).1.

(** ** Text *)

(** [c in s] for one character. *)
Fixpoint mem (c : ascii) (s : string) : bool :=
  match s with
  | EmptyString => false
  | String c' s' => Ascii.eqb c' c || mem c s'
  end.

(** [sub in s] *)
Fixpoint contains (sub s : string) : bool :=
  String.prefix sub s
  || match s with
     | EmptyString => false
     | String _ s' => contains sub s'
     end.



(** ** Forms *)

(** The value of the first pair named [key]. *)
Fixpoint first_value (key : string) (pairs : list (string * string)) : option string :=
  match pairs with
  | [] => None
  | (name, value) :: pairs' =>
      if String.eqb name key then Some value else first_value key pairs'
  end.

(** All values of the pairs named [key], in order. *)
Fixpoint values (key : string) (pairs : list (string * string)) : list string :=
  match pairs with
  | [] => []
  | (name, value) :: pairs' =>
      if String.eqb name key then value :: values key pairs' else values key pairs'
  end.

(** ** The results table *)

(** One block of the results table: seven cells in the order employee
    name, date, start time, end time, rotation, total hours, comment. *)
Definition row_cells (row : Row.t) : list string :=
  [Row.employee_name row; Row.date row; Row.start_time row; Row.end_time row;
   Row.rotation row; float_str (Row.total_hours row); Row.comment row].

Definition join (l : list string) : string := foldr String.append "" l.

Definition row_block (row : Row.t) : string :=
  "<tr>" +:+ join (td <$> row_cells row) +:+ "</tr>".

(** ** The search *)

(** The order of the specification: later dates first and, among equal
    dates, earlier start times first; text compared as SQLite does,
    byte-wise. *)
Definition date_desc_start_asc (r1 r2 : Row.t) : Prop :=
  String.ltb (Row.date r2) (Row.date r1) = true
  ∨ (Row.date r1 = Row.date r2
     ∧ String.leb (Row.start_time r1) (Row.start_time r2) = true).

(** The filter of [POST /search], for the trimmed values of the two form
    fields. *)
Definition matches (employee_name date : string) (row : Row.t) : Prop :=
  (employee_name = ""
   ∨ sqlite3.like ("%" +:+ employee_name +:+ "%") (Row.employee_name row) = true)
  ∧ (date = "" ∨ Row.date row = date).

(** ** Further vocabulary *)

(** The minutes from one clock time to the next occurrence of another. *)
Definition elapsed_minutes (h1 m1 h2 m2 : Z) : Z :=
  let start := 60 * h1 + m1 in
  let end_ := 60 * h2 + m2 in
  if start <? end_ then end_ - start else end_ + 1440 - start.

(** The request with another method. *)
Definition with_method (environ : Environ) (method : string) : Environ :=
  {| PATH_INFO := PATH_INFO environ;
     REQUEST_METHOD := Some method;
     request_body := request_body environ |}.

(** The answer to an unknown route. *)
Definition not_found : Response :=
  {| status := "404 Not Found";
     headers := [("Content-Type", "text/plain; charset=utf-8")];
     body := encode "404 Not Found" |}.

(** The record of a form, with its identifier and its hours. *)
Definition row_of_form (rowid : Z) (form : gmap string string) (total_hours : Q)
    : Row.t :=
  {| Row.id := rowid;
     Row.employee_name := str.strip (get form "employee_name" "");
     Row.date := get form "date" "";
     Row.start_time := get form "start_time" "";
     Row.end_time := get form "end_time" "";
     Row.rotation := get form "rotation" "";
     Row.total_hours := total_hours;
     Row.comment := str.strip (get form "comment" "") |}.

(** A text that is empty or starts with a character that is no white
    space. *)
Definition starts_black (s : string) : Prop :=
  match s with
  | EmptyString => True
  | String c _ => str.isspace c = false
  end.

(** Only white space. *)
Fixpoint all_space (s : string) : bool :=
  match s with
  | EmptyString => true
  | String c s' => str.isspace c && all_space s'
  end.

#[global] Instance matches_dec employee_name date row :
  Decision (matches employee_name date row).
Proof. unfold matches. apply _. Defined.

(** The trimmed value of a field of the form of a request. *)
Definition trimmed (unquote : string → string) (environ : Environ) (field : string)
    : string :=
  str.strip (get (parse_post_data unquote environ) field "").

(** ** Data for the examples *)

(** [unquote] for a text without [%]: nothing to decode. *)
Definition unquote_plain (s : string) : string := s.

(** Two template files for the examples. *)
Definition two_templates (name : string) : option string :=
  if String.eqb name "index.html" then Some "<form method='post'></form>"
  else if String.eqb name "search.html"
       then Some "<table>{{ results_table }}</table>"
       else None.

Definition POST (path body : string) : Environ :=
  {| PATH_INFO := Some path; REQUEST_METHOD := Some "POST"; request_body := body |}.

Definition empty_table : Database := Some {| rows := []; sequence := 0 |}.

Definition alice_row : Row.t :=
  Row.mk 1 "Alice" "2024-01-02" "22:00" "06:00" "night" 8 "".

Definition bob_row : Row.t :=
  Row.mk 2 "Bob" "2024-01-03" "09:00" "17:20" "day" (833 # 100) "late".

Definition two_rows : Database :=
  Some {| rows := [alice_row; bob_row]; sequence := 2 |}.

(** ** Data for the further examples *)

Definition GET (path : string) : Environ :=
  {| PATH_INFO := Some path; REQUEST_METHOD := Some "GET"; request_body := "" |}.

Definition alice_request : Environ :=
  POST "/" "employee_name=+Alice+&date=2024-01-02&start_time=22:00&end_time=06:00&rotation=night".

Definition bob_request : Environ :=
  POST "/" "employee_name=Bob&date=2024-01-03&start_time=09:00&end_time=17:20&rotation=day&comment=late".

Definition two_rows_table : Table :=
  {| rows := [alice_row; bob_row]; sequence := 2 |}.

(** A template with a scalar placeholder. *)
Definition hello_templates (name : string) : option string :=
  if String.eqb name "hello.html" then Some "<p>Hello {{ name }}!</p>" else None.

(** * Properties *)

(** ** Parsing a clock time *)

Lemma digit_range c d : str.digit c = Some d → 0 <= d <= 9.
Proof.
  unfold str.digit. case_match; [|done]. intros [= <-]. lia.
Qed.

Lemma two_chars_inv {A} p1 p2 s (k : Z → string → option A) r :
  datetime.two_chars p1 p2 s k = Some r →
  ∃ d1 d2 rest, 0 <= d1 <= 9 ∧ 0 <= d2 <= 9 ∧ p1 d1 = true ∧ p2 d2 = true
                ∧ k (10 * d1 + d2) rest = Some r.
Proof.
  unfold datetime.two_chars. intros H.
  destruct s as [|c1 [|c2 rest]]; try done.
  destruct (str.digit c1) as [d1|] eqn:E1; [|done].
  destruct (str.digit c2) as [d2|] eqn:E2; [|done].
  destruct (p1 d1 && p2 d2) eqn:E; [|done].
  apply andb_true_iff in E as [? ?].
  pose proof (digit_range _ _ E1). pose proof (digit_range _ _ E2).
  exists d1, d2, rest. done.
Qed.

Lemma one_char_inv {A} s (k : Z → string → option A) r :
  datetime.one_char s k = Some r →
  ∃ d1 rest, 0 <= d1 <= 9 ∧ k d1 rest = Some r.
Proof.
  unfold datetime.one_char. intros H.
  destruct s as [|c1 rest]; [done|].
  destruct (str.digit c1) as [d1|] eqn:E1; [|done].
  pose proof (digit_range _ _ E1).
  exists d1, rest. done.
Qed.

Lemma orelse_inv {A} (x y : option A) r :
  datetime.orelse x y = Some r → x = Some r ∨ y = Some r.
Proof. destruct x; simpl; auto. Qed.

Lemma group_H_inv {A} s (k : Z → string → option A) r :
  datetime.group_H s k = Some r →
  ∃ h rest, 0 <= h <= 23 ∧ k h rest = Some r.
Proof.
  unfold datetime.group_H. intros H.
  apply orelse_inv in H as [H|H]; [|apply orelse_inv in H as [H|H]].
  - apply two_chars_inv in H as (d1 & d2 & rest & ? & ? & ? & ? & ?).
    exists (10 * d1 + d2), rest. split; [lia | done].
  - apply two_chars_inv in H as (d1 & d2 & rest & ? & ? & ? & ? & ?).
    exists (10 * d1 + d2), rest. split; [lia | done].
  - apply one_char_inv in H as (d1 & rest & ? & ?).
    exists d1, rest. split; [lia | done].
Qed.

Lemma group_M_inv {A} s (k : Z → string → option A) r :
  datetime.group_M s k = Some r →
  ∃ m rest, 0 <= m <= 59 ∧ k m rest = Some r.
Proof.
  unfold datetime.group_M. intros H.
  apply orelse_inv in H as [H|H].
  - apply two_chars_inv in H as (d1 & d2 & rest & ? & ? & ? & ? & ?).
    exists (10 * d1 + d2), rest. split; [lia | done].
  - apply one_char_inv in H as (d1 & rest & ? & ?).
    exists d1, rest. split; [lia | done].
Qed.

(** A parsed time is a time of day on 1900-01-01. *)
Lemma strptime_H_M_inv s dt :
  datetime.strptime_H_M s = Ok dt →
  ∃ h m, dt = datetime.mk 1900 1 1 h m 0 ∧ 0 <= h <= 23 ∧ 0 <= m <= 59.
Proof.
  unfold datetime.strptime_H_M, datetime.match_H_M. intros H.
  destruct (datetime.group_H _ _) as [[[h m] rest]|] eqn:E; [|done].
  destruct rest; [|done]. injection H as <-.
  apply group_H_inv in E as (h' & s1 & Hh & E).
  unfold datetime.colon in E. destruct s1 as [|c s2]; [done|].
  destruct (Ascii.eqb c ":"); [|done].
  apply group_M_inv in E as (m' & s3 & Hm & E).
  injection E as -> -> ->. eauto.
Qed.

Lemma digit_digit_char d : 0 <= d <= 9 → str.digit (digit_char d) = Some d.
Proof.
  intros H. assert (Hd : d ∈ [0; 1; 2; 3; 4; 5; 6; 7; 8; 9]).
  { rewrite !elem_of_cons. lia. }
  rewrite !elem_of_cons, elem_of_nil in Hd.
  destruct Hd as [->|[->|[->|[->|[->|[->|[->|[->|[->|[->|[]]]]]]]]]]]; reflexivity.
Qed.

Lemma strptime_H_M_HH_MM h m :
  0 <= h <= 23 → 0 <= m <= 59 →
  datetime.strptime_H_M (HH_MM h m) = Ok (datetime.mk 1900 1 1 h m 0).
Proof.
  intros Hh Hm.
  assert (0 <= h `div` 10 <= 2) by (Z.div_mod_to_equations; lia).
  assert (0 <= m `div` 10 <= 5) by (Z.div_mod_to_equations; lia).
  assert (0 <= h `mod` 10 <= 9) by (Z.div_mod_to_equations; lia).
  assert (0 <= m `mod` 10 <= 9) by (Z.div_mod_to_equations; lia).
  assert (Eh : 10 * (h `div` 10) + h `mod` 10 = h) by (Z.div_mod_to_equations; lia).
  assert (Em : 10 * (m `div` 10) + m `mod` 10 = m) by (Z.div_mod_to_equations; lia).
  unfold datetime.strptime_H_M, datetime.match_H_M, HH_MM.
  unfold datetime.group_H, datetime.two_chars, datetime.one_char.
  rewrite !digit_digit_char by lia.
  assert (EM : datetime.group_M
            (String (digit_char (m `div` 10)) (String (digit_char (m `mod` 10)) ""))
            (λ m0 s3, Some (h, m0, s3)) = Some (h, m, "")).
  { unfold datetime.group_M, datetime.two_chars.
    rewrite !digit_digit_char by lia.
    replace (m `div` 10 <=? 5) with true by (symmetry; apply Z.leb_le; lia).
    simpl. by rewrite Em. }
  destruct (Z.eq_dec (h `div` 10) 2) as [E2|E2].
  - replace (h `div` 10 =? 2) with true by (symmetry; apply Z.eqb_eq; lia).
    replace (h `mod` 10 <=? 3) with true by (symmetry; apply Z.leb_le; lia).
    simpl. rewrite Eh. simpl. by rewrite EM.
  - replace (h `div` 10 =? 2) with false by (symmetry; apply Z.eqb_neq; lia).
    replace (h `div` 10 <=? 1) with true by (symmetry; apply Z.leb_le; lia).
    simpl. rewrite Eh. simpl. by rewrite EM.
Qed.

Lemma digit_not_colon c d : str.digit c = Some d → Ascii.eqb c ":" = false.
Proof.
  unfold str.digit, str.code. intros H.
  by destruct (Ascii.eqb_spec c ":") as [->|].
Qed.

(** [strptime] with ["%H:%M"] accepts the clock times and nothing else:
    the expression with its alternatives reads what [clock_text] reads. *)
Lemma strptime_H_M_clock_text s :
  datetime.strptime_H_M s
  = match clock_text s with
    | Some (h, m) => Ok (datetime.mk 1900 1 1 h m 0)
    | None => Raise ValueError
    end.
Proof.
  unfold datetime.strptime_H_M, datetime.match_H_M, datetime.group_H,
    datetime.group_M, datetime.two_chars, datetime.one_char, datetime.colon,
    datetime.orelse, clock_text, number.
  destruct s as [|c1 [|c2 [|c3 [|c4 [|c5 [|c6 s]]]]]]; cbn [str.split1].
  all: repeat first
    [ progress cbn [str.split1]
    | match goal with
      | H : str.digit ?c = _ |- context [str.digit ?c] => rewrite H
      | H : Ascii.eqb ?c ":" = _ |- context [Ascii.eqb ?c ":"] => rewrite H
      | |- context [str.digit ?c] =>
          let E := fresh "E" in
          destruct (str.digit c) as [?d|] eqn:E;
          [pose proof (digit_range _ _ E); pose proof (digit_not_colon _ _ E)|]
      | |- context [Ascii.eqb ?c ":"] => destruct (Ascii.eqb c ":") eqn:?
      | |- context [str.split1 ":" ?s] => destruct (str.split1 ":" s) as [? [?|]]
      end ].
  all: try discriminate.
  all: repeat match goal with
       | |- context [?a =? ?b] => destruct (Z.eqb_spec a b)
       | |- context [?a <=? ?b] => destruct (Z.leb_spec a b)
       end; simpl; try done; try lia.
Qed.

Lemma clock_text_Some s h m :
  clock_text s = Some (h, m) →
  datetime.strptime_H_M s = Ok (datetime.mk 1900 1 1 h m 0).
Proof. intros H. by rewrite strptime_H_M_clock_text, H. Qed.

Lemma clock_text_None s :
  clock_text s = None → datetime.strptime_H_M s = Raise ValueError.
Proof. intros H. by rewrite strptime_H_M_clock_text, H. Qed.

Lemma digit_char_digit c d : str.digit c = Some d → digit_char d = c.
Proof.
  unfold str.digit, digit_char, str.code. case_match; [|done]. intros [= <-].
  replace (48 + (Z.of_N (N_of_ascii c) - 48)) with (Z.of_N (N_of_ascii c)) by lia.
  rewrite N2Z.id. apply ascii_N_embedding.
Qed.

(** The texts of the pattern [HH:MM] are the texts [HH_MM h m] of the hours
    and minutes of a day. *)
Lemma is_HH_MM_HH_MM s :
  is_HH_MM s = true
  ↔ ∃ h m, 0 <= h <= 23 ∧ 0 <= m <= 59 ∧ s = HH_MM h m.
Proof.
  split.
  - unfold is_HH_MM.
    destruct s as [|h1 [|h2 [|c [|m1 [|m2 [|? ?]]]]]]; try done.
    destruct (str.digit h1) as [a|] eqn:Ea; [|done].
    destruct (str.digit h2) as [b|] eqn:Eb; [|done].
    destruct (str.digit m1) as [d|] eqn:Ed; [|done].
    destruct (str.digit m2) as [e|] eqn:Ee; [|done].
    intros H. apply andb_true_iff in H as [H Hm].
    apply andb_true_iff in H as [Hc Hh].
    apply Ascii.eqb_eq in Hc as ->.
    apply Z.leb_le in Hh. apply Z.leb_le in Hm.
    pose proof (digit_range _ _ Ea). pose proof (digit_range _ _ Eb).
    pose proof (digit_range _ _ Ed). pose proof (digit_range _ _ Ee).
    exists (10 * a + b), (10 * d + e). split; [lia|]. split; [lia|].
    unfold HH_MM.
    replace ((10 * a + b) `div` 10) with a by (Z.div_mod_to_equations; lia).
    replace ((10 * a + b) `mod` 10) with b by (Z.div_mod_to_equations; lia).
    replace ((10 * d + e) `div` 10) with d by (Z.div_mod_to_equations; lia).
    replace ((10 * d + e) `mod` 10) with e by (Z.div_mod_to_equations; lia).
    by rewrite !(digit_char_digit _ _ Ea), !(digit_char_digit _ _ Eb),
      !(digit_char_digit _ _ Ed), !(digit_char_digit _ _ Ee).
  - intros (h & m & Hh & Hm & ->). unfold is_HH_MM, HH_MM.
    rewrite !digit_digit_char by (Z.div_mod_to_equations; lia).
    apply andb_true_iff. split; [apply andb_true_iff; split|].
    + reflexivity.
    + apply Z.leb_le. Z.div_mod_to_equations. lia.
    + apply Z.leb_le. Z.div_mod_to_equations. lia.
Qed.

(** [strptime] accepts every text of the pattern [HH:MM]: the texts that it
    rejects are among those that do not match the pattern. *)
Lemma is_HH_MM_clock_text s : is_HH_MM s = true → is_Some (clock_text s).
Proof.
  intros H. apply is_HH_MM_HH_MM in H as (h & m & Hh & Hm & ->).
  pose proof (strptime_H_M_HH_MM h m Hh Hm) as E.
  rewrite strptime_H_M_clock_text in E.
  by destruct (clock_text (HH_MM h m)) as [[? ?]|].
Qed.

(** ** Rounding *)

Lemma round_half_even_near (x : Q) :
  (Qabs (inject_Z (round_half_even x) - x) <= 1 # 2)%Q.
Proof.
  unfold round_half_even.
  pose proof (Qfloor_le x) as Hlo. pose proof (Qlt_floor x) as Hhi.
  rewrite inject_Z_plus in Hhi. change (inject_Z 1) with 1%Q in Hhi.
  assert (Hup : (inject_Z (Qfloor x + 1) == inject_Z (Qfloor x) + 1)%Q)
    by (by rewrite inject_Z_plus).
  destruct (Qcompare_spec (x - inject_Z (Qfloor x)) (1 # 2)) as [E|E|E].
  - destruct (Z.even (Qfloor x)).
    + apply Qabs_Qle_condition. split; lra.
    + rewrite Hup. apply Qabs_Qle_condition. split; lra.
  - apply Qabs_Qle_condition. split; lra.
  - rewrite Hup. apply Qabs_Qle_condition. split; lra.
Qed.

(** [round2 x] is a whole number of hundredths, at most half a hundredth
    away from [x]. *)
Lemma round2_near (x : Q) :
  (∃ k : Z, (round2 x == inject_Z k / 100)%Q)
  ∧ (Qabs (round2 x - x) <= 1 # 200)%Q.
Proof.
  unfold round2. split.
  - exists (round_half_even (x * 100)). apply Qred_correct.
  - rewrite Qred_correct.
    pose proof (round_half_even_near (x * 100)) as H.
    apply Qabs_Qle_condition in H as [H1 H2].
    generalize dependent (inject_Z (round_half_even (x * 100))). intros q H1 H2.
    unfold Qdiv. change (/ 100)%Q with (1 # 100)%Q.
    apply Qabs_Qle_condition. split; lra.
Qed.

(** ** [compute_total_hours] *)

Lemma le_clock h1 m1 h2 m2 :
  0 <= m1 <= 59 → 0 <= m2 <= 59 →
  datetime.le (datetime.mk 1900 1 1 h2 m2 0) (datetime.mk 1900 1 1 h1 m1 0)
  = negb (clock (datetime.mk 1900 1 1 h1 m1 0) <? clock (datetime.mk 1900 1 1 h2 m2 0)).
Proof.
  intros H1 H2. unfold datetime.le, clock. simpl.
  destruct (Z.ltb_spec (0 + m1 * 60 + h1 * 3600) (0 + m2 * 60 + h2 * 3600));
    destruct (Z.compare_spec h2 h1); try lia; simpl;
    try destruct (Z.compare_spec m2 m1); simpl; try done; lia.
Qed.

Lemma total_seconds_make d s :
  timedelta.total_seconds (timedelta.make d s) = inject_Z (d * 86400 + s).
Proof.
  unfold timedelta.total_seconds, timedelta.make. simpl. f_equal.
  Z.div_mod_to_equations. lia.
Qed.

Lemma compute_total_hours_elapsed start_time end_time start end_ :
  datetime.strptime_H_M start_time = Ok start →
  datetime.strptime_H_M end_time = Ok end_ →
  compute_total_hours start_time end_time
  = Ok (round2 (inject_Z (elapsed start end_) / 3600)).
Proof.
  intros Hs He. unfold compute_total_hours. rewrite Hs, He. simpl.
  apply strptime_H_M_inv in Hs as (h1 & m1 & -> & Hh1 & Hm1).
  apply strptime_H_M_inv in He as (h2 & m2 & -> & Hh2 & Hm2).
  rewrite le_clock by done. unfold elapsed.
  destruct (clock _ <? clock _) eqn:E; simpl.
  - unfold datetime.sub. rewrite total_seconds_make.
    apply (f_equal (λ z, Ok (round2 (inject_Z z / 3600)))).
    unfold clock, datetime.toordinal. simpl. lia.
  - unfold datetime.sub. rewrite total_seconds_make.
    apply (f_equal (λ z, Ok (round2 (inject_Z z / 3600)))).
    unfold clock, datetime.toordinal. simpl. lia.
Qed.

(** C1. For two time strings in the format ["%H:%M"] -- an hour up to 23, a
    colon, a minute up to 59 -- [compute_total_hours] returns the seconds
    from start to end divided by 3600 and rounded to two decimal places: the
    plain difference when the end is strictly after the start, the
    difference to the end one day later (86400 seconds more) when the end is
    at or before the start.  The value returned is a whole number of
    hundredths within half a hundredth of the exact quotient.  In particular
    09:00 to 17:00 gives 8.0, 22:00 to 06:00 gives 8.0 and 09:00 to 09:00
    gives 24.0. *)
Theorem compute_total_hours_correct :
  (∀ (start_time end_time : string) (h1 m1 h2 m2 : Z),
     clock_text start_time = Some (h1, m1) →
     clock_text end_time = Some (h2, m2) →
     let start := 3600 * h1 + 60 * m1 in
     let end_ := 3600 * h2 + 60 * m2 in
     let seconds :=
       if start <? end_ then end_ - start else (end_ + 86400) - start in
     let hours := (inject_Z seconds / 3600)%Q in
     ∃ r : Q,
       compute_total_hours start_time end_time = Ok r
       ∧ r = round2 hours
       ∧ (∃ k : Z, (r == inject_Z k / 100)%Q)
       ∧ (Qabs (r - hours) <= 1 # 200)%Q)
  ∧ compute_total_hours "09:00" "17:00" = Ok 8%Q
  ∧ compute_total_hours "22:00" "06:00" = Ok 8%Q
  ∧ compute_total_hours "09:00" "09:00" = Ok 24%Q.
Proof.
  split; [|by vm_compute].
  intros start_time end_time h1 m1 h2 m2 Hs He start end_ seconds hours.
  exists (round2 hours). split; [|split; [done | apply round2_near]].
  rewrite (compute_total_hours_elapsed _ _ _ _
             (clock_text_Some _ _ _ Hs) (clock_text_Some _ _ _ He)).
  apply (f_equal (λ z, Ok (round2 (inject_Z z / 3600)))).
  unfold elapsed, clock, seconds, start, end_. simpl.
  destruct (Z.ltb_spec (0 + m1 * 60 + h1 * 3600) (0 + m2 * 60 + h2 * 3600));
    destruct (Z.ltb_spec (3600 * h1 + 60 * m1) (3600 * h2 + 60 * m2)); lia.
Qed.

Lemma compute_total_hours_correct_witness :
  ∃ r : Q,
    compute_total_hours "22:15" "06:00" = Ok r
    ∧ r = round2 (inject_Z 27900 / 3600)
    ∧ (∃ k : Z, (r == inject_Z k / 100)%Q)
    ∧ (Qabs (r - inject_Z 27900 / 3600) <= 1 # 200)%Q.
Proof.
  exact (proj1 compute_total_hours_correct "22:15" "06:00" 22 15 6 0
           eq_refl eq_refl).
Defined.

(** The duration is never negative. *)
Lemma round_half_even_nonneg (x : Q) : (0 <= x)%Q → 0 <= round_half_even x.
Proof.
  intros Hx. unfold round_half_even.
  assert (0 <= Qfloor x) by (change 0 with (Qfloor 0); by apply Qfloor_resp_le).
  repeat case_match; lia.
Qed.

Lemma round2_nonneg (x : Q) : (0 <= x)%Q → (0 <= round2 x)%Q.
Proof.
  intros Hx. unfold round2. rewrite Qred_correct.
  assert (H : 0 <= round_half_even (x * 100)).
  { apply round_half_even_nonneg. apply Qmult_le_0_compat; [done | by vm_compute]. }
  apply Qle_shift_div_l; [by vm_compute |].
  rewrite Qmult_0_l. change 0%Q with (inject_Z 0). by rewrite <- Zle_Qle.
Qed.

Lemma elapsed_pos start_time start end_time end_ :
  datetime.strptime_H_M start_time = Ok start →
  datetime.strptime_H_M end_time = Ok end_ →
  0 < elapsed start end_ <= 86400.
Proof.
  intros Hs He.
  apply strptime_H_M_inv in Hs as (h1 & m1 & -> & Hh1 & Hm1).
  apply strptime_H_M_inv in He as (h2 & m2 & -> & Hh2 & Hm2).
  unfold elapsed, clock. simpl. case_match; lia.
Qed.

Lemma compute_total_hours_nonneg start_time end_time h :
  compute_total_hours start_time end_time = Ok h → (0 <= h)%Q.
Proof.
  intros H.
  destruct (datetime.strptime_H_M start_time) as [start|] eqn:Hs;
    [|by unfold compute_total_hours in H; rewrite Hs in H].
  destruct (datetime.strptime_H_M end_time) as [end_|] eqn:He;
    [|by unfold compute_total_hours in H; rewrite Hs, He in H].
  rewrite (compute_total_hours_elapsed _ _ _ _ Hs He) in H.
  injection H as <-. apply round2_nonneg.
  pose proof (elapsed_pos _ _ _ _ Hs He).
  apply Qle_shift_div_l; [by vm_compute |].
  rewrite Qmult_0_l. change 0%Q with (inject_Z 0). rewrite <- Zle_Qle. lia.
Qed.

(** Only [ValueError] comes out of the duration computation. *)
Lemma strptime_H_M_raises s e :
  datetime.strptime_H_M s = Raise e → e = ValueError.
Proof.
  unfold datetime.strptime_H_M. repeat case_match; congruence.
Qed.

Lemma compute_total_hours_malformed start_time end_time :
  datetime.strptime_H_M start_time = Raise ValueError
  ∨ datetime.strptime_H_M end_time = Raise ValueError →
  compute_total_hours start_time end_time = Raise ValueError.
Proof.
  unfold compute_total_hours. intros [H|H].
  - by rewrite H.
  - rewrite H. destruct (datetime.strptime_H_M start_time) as [?|e] eqn:E; [done|].
    by apply strptime_H_M_raises in E as ->.
Qed.

(** ** The request handler *)

Section Handler.

Variable unquote : string → string.
Variable templates : string → option string.

Lemma application_post_index environ db :
  path_of environ = "/" → method_of environ = "POST" →
  application unquote templates environ db = post_index unquote environ (init_db db).
Proof.
  unfold path_of, method_of, application. by intros -> ->.
Qed.

Lemma application_post_search environ db :
  path_of environ = "/search" → method_of environ = "POST" →
  application unquote templates environ db
  = match search unquote environ (init_db db) with
    | Ok results =>
        (init_db db,
         html (render_template templates "search.html"
                 (Some [("results", VList results)])))
    | Raise e => (init_db db, Raise e)
    end.
Proof.
  unfold path_of, method_of, application. intros -> ->. simpl.
  by destruct (search _ _ _).
Qed.

Lemma rows_of_init_db db : rows_of (init_db db) = rows_of db.
Proof. by destruct db. Qed.

Lemma init_db_Some db : ∃ t, init_db db = Some t ∧ rows t = rows_of db.
Proof. destruct db as [t|]; simpl; eauto. Qed.

(** Every request leaves the stored rows in place and at most appends. *)
Lemma post_index_rows environ db :
  rows_of db `prefix_of` rows_of (post_index unquote environ db).1.
Proof.
  unfold post_index.
  destruct (compute_total_hours _ _) as [h|e]; [|done].
  destruct db as [t|]; simpl; [|done].
  by apply prefix_app_r.
Qed.

Lemma application_rows environ db :
  rows_of db `prefix_of` rows_of (application unquote templates environ db).1.
Proof.
  rewrite <- (rows_of_init_db db) at 1. unfold application.
  repeat case_match; simpl; try done.
  apply post_index_rows.
Qed.

(** C9. Schema initialisation creates the table only when it is absent:
    called once or any number of times more it gives the same database,
    the rows stay as they were, and on a database that has the table it
    changes nothing. *)
Theorem init_db_idempotent (db : Database) (n : nat) :
  Nat.iter (S n) init_db db = init_db db
  ∧ rows_of (Nat.iter n init_db db) = rows_of db
  ∧ is_Some (init_db db)
  ∧ (∀ t : Table, init_db (Some t) = Some t).
Proof.
  assert (Hidem : ∀ k, Nat.iter (S k) init_db db = init_db db).
  { induction k as [|k IH]; [done|].
    change (init_db (Nat.iter (S k) init_db db) = init_db db).
    rewrite IH. by destruct db. }
  split; [done|]. split; [|split; [by destruct db | done]].
  destruct n as [|k]; [done|]. rewrite Hidem. apply rows_of_init_db.
Qed.

(** C3 as amended. A [POST /] whose start or end time is a text that
    [strptime] rejects for the format ["%H:%M"] -- any text other than an
    hour up to 23, a colon and a minute up to 59, each of one or two
    digits -- ends with the [ValueError] of the parse: the response is the
    exception, no row is inserted, and a database that already has the table
    is left exactly as it was. *)
Theorem malformed_time_aborts (environ : Environ) (db : Database) :
  path_of environ = "/" → method_of environ = "POST" →
  let form := parse_post_data unquote environ in
  clock_text (get form "start_time" "") = None
  ∨ clock_text (get form "end_time" "") = None →
  application unquote templates environ db = (init_db db, Raise ValueError)
  ∧ rows_of (application unquote templates environ db).1 = rows_of db
  ∧ (is_Some db → (application unquote templates environ db).1 = db).
Proof.
  intros Hp Hm form Hbad.
  rewrite application_post_index by done.
  unfold post_index. fold form.
  rewrite compute_total_hours_malformed
    by (destruct Hbad as [H|H]; [left | right]; by apply clock_text_None).
  simpl. split; [done|]. split; [apply rows_of_init_db|].
  by intros [t ->].
Qed.

(** C5 as amended. In a [POST /] every field missing from the form reads as
    the empty string.  When the start and end time so read are clock times,
    the request appends one record and answers 303; the record holds the
    submitted values, and its employee name, date, rotation and comment are
    empty where the field is missing.  When [start_time] or [end_time] is
    missing, the empty string is no clock time: the request ends with
    [ValueError] and nothing is stored. *)
Theorem missing_fields_default (environ : Environ) (db : Database) :
  path_of environ = "/" → method_of environ = "POST" →
  let form := parse_post_data unquote environ in
  (∀ field : string, form !! field = None → get form field "" = "")
  ∧ (∀ total_hours : Q,
       compute_total_hours (get form "start_time" "") (get form "end_time" "")
       = Ok total_hours →
       ∃ row : Row.t,
         rows_of (application unquote templates environ db).1 = rows_of db ++ [row]
         ∧ (application unquote templates environ db).2
           = Ok {| status := "303 See Other"; headers := [("Location", "/")];
                   body := [] |}
         ∧ Row.employee_name row = str.strip (get form "employee_name" "")
         ∧ Row.date row = get form "date" ""
         ∧ Row.start_time row = get form "start_time" ""
         ∧ Row.end_time row = get form "end_time" ""
         ∧ Row.rotation row = get form "rotation" ""
         ∧ Row.total_hours row = total_hours
         ∧ Row.comment row = str.strip (get form "comment" "")
         ∧ (form !! "employee_name" = None → Row.employee_name row = "")
         ∧ (form !! "date" = None → Row.date row = "")
         ∧ (form !! "rotation" = None → Row.rotation row = "")
         ∧ (form !! "comment" = None → Row.comment row = ""))
  ∧ (form !! "start_time" = None ∨ form !! "end_time" = None →
     application unquote templates environ db = (init_db db, Raise ValueError)
     ∧ rows_of (application unquote templates environ db).1 = rows_of db).
Proof.
  intros Hp Hm form.
  assert (Hget : ∀ field : string, form !! field = None → get form field "" = "").
  { intros field H. unfold get. by rewrite H. }
  split; [done|]. split.
  - intros total_hours Hh.
    rewrite application_post_index by done.
    unfold post_index. fold form. rewrite Hh.
    destruct (init_db_Some db) as (t & -> & Ht). simpl. rewrite Ht.
    eexists. split; [done|]. split; [done|]. simpl.
    split_and!; try done.
    + intros H. by rewrite (Hget _ H).
    + intros H. by rewrite (Hget _ H).
    + intros H. by rewrite (Hget _ H).
    + intros H. by rewrite (Hget _ H).
  - intros Hmiss.
    rewrite application_post_index by done.
    unfold post_index. fold form.
    rewrite compute_total_hours_malformed.
    + simpl. split; [done | apply rows_of_init_db].
    + destruct Hmiss as [H|H]; rewrite (Hget _ H); [by left | by right].
Qed.

(** C8. The hours that [compute_total_hours] returns are never negative;
    so every record in a database that requests have produced has
    non-negative total hours, equal to what [compute_total_hours] gives for
    its start and end time; and no request changes or removes a stored
    record: the rows before a request are the first rows after it. *)
Theorem total_hours_nonnegative :
  (∀ (start_time end_time : string) (h : Q),
     compute_total_hours start_time end_time = Ok h → (0 <= h)%Q)
  ∧ (∀ db : Database,
       reachable unquote templates db →
       ∀ row : Row.t, row ∈ rows_of db →
         (0 <= Row.total_hours row)%Q
         ∧ compute_total_hours (Row.start_time row) (Row.end_time row)
           = Ok (Row.total_hours row))
  ∧ (∀ (environ : Environ) (db : Database),
       rows_of db `prefix_of`
         rows_of (application unquote templates environ db).1).
Proof.
  split; [apply compute_total_hours_nonneg|].
  split; [|apply application_rows].
  assert (Hinv : ∀ db, reachable unquote templates db →
            ∀ row, row ∈ rows_of db →
              compute_total_hours (Row.start_time row) (Row.end_time row)
              = Ok (Row.total_hours row)).
  { induction 1 as [|environ db Hr IH]; [by intros row ?%elem_of_nil|].
    intros row. unfold application.
    repeat case_match; simpl; rewrite ?rows_of_init_db; auto.
    unfold post_index.
    destruct (compute_total_hours _ _) as [h|e] eqn:Hh;
      [|simpl; rewrite rows_of_init_db; auto].
    destruct (init_db_Some db) as (t & -> & Ht). simpl. rewrite Ht.
    intros [Hin|Hin%list_elem_of_singleton]%elem_of_app; [auto|].
    by subst row. }
  intros db Hr row Hin. split; [|by apply (Hinv db)].
  eapply compute_total_hours_nonneg. by apply (Hinv db).
Qed.

End Handler.

(** ** Text *)

Lemma append_cons c s t : String c s +:+ t = String c (s +:+ t).
Proof. done. Qed.

Lemma append_nil_r s : s +:+ "" = s.
Proof. induction s as [|c s IH]; [done|]. by rewrite append_cons, IH. Qed.

Lemma append_assoc s t u : (s +:+ t) +:+ u = s +:+ (t +:+ u).
Proof. induction s as [|c s IH]; [done|]. by rewrite !append_cons, IH. Qed.

(** ** The form *)

Lemma first_value_values key pairs : first_value key pairs = head (values key pairs).
Proof.
  induction pairs as [|[name value] pairs IH]; [done|].
  simpl. by destruct (String.eqb name key).
Qed.

Lemma split_no_sep sep s : mem sep s = false → str.split sep s = [s].
Proof.
  induction s as [|c s IH]; [done|]. simpl.
  intros [Hc Hs]%orb_false_iff. rewrite Hc. by rewrite IH.
Qed.

Lemma split_app sep s t :
  mem sep s = false →
  str.split sep (s +:+ String sep t) = s :: str.split sep t.
Proof.
  induction s as [|c s IH]; simpl.
  - intros _. change ("" +:+ String sep t) with (String sep t). simpl.
    by rewrite Ascii.eqb_refl.
  - intros [Hc Hs]%orb_false_iff. rewrite ?append_cons. simpl.
    rewrite Hc. by rewrite IH.
Qed.

(** Pieces without [&], joined with [&], split back into the pieces. *)
Lemma split_concat pieces :
  Forall (λ p, mem "&" p = false) pieces → pieces ≠ [] →
  str.split "&" (String.concat "&" pieces) = pieces.
Proof.
  induction 1 as [|p pieces Hp Hps IH]; [done|]. intros _.
  destruct pieces as [|q pieces]; simpl.
  - by apply split_no_sep.
  - change ("&" +:+ ?x) with (String "&" x).
    rewrite split_app by done. f_equal. by apply IH.
Qed.

Lemma split1_blank n :
  mem "=" n = false → str.split1 "=" (n +:+ "=") = (n, Some "").
Proof.
  induction n as [|c n IH]; [done|]. simpl.
  intros [Hc Hn]%orb_false_iff. rewrite ?append_cons. simpl.
  rewrite Hc. by rewrite IH.
Qed.

Lemma split1_pair n v :
  mem "=" n = false → str.split1 "=" (n +:+ "=" +:+ v) = (n, Some v).
Proof.
  induction n as [|c n IH]; [reflexivity|].
  cbn [mem]. intros [Hc Hn]%orb_false_iff.
  rewrite append_cons. cbn [str.split1]. rewrite Hc. by rewrite IH.
Qed.

Lemma mem_app c s t : mem c (s +:+ t) = mem c s || mem c t.
Proof.
  induction s as [|c' s IH]; [done|]. rewrite append_cons. simpl.
  by rewrite IH, orb_assoc.
Qed.

Lemma first_value_app key l1 l2 :
  first_value key (l1 ++ l2)
  = match first_value key l1 with
    | Some v => Some v
    | None => first_value key l2
    end.
Proof.
  induction l1 as [|[name value] l1 IH]; [done|]. simpl.
  by destruct (String.eqb name key).
Qed.

Section Form.

Variable unquote : string → string.

Lemma foldl_parse_field acc pieces :
  foldl (λ r name_value, r ++ parse_field unquote name_value) acc pieces
  = acc ++ flat_map (parse_field unquote) pieces.
Proof.
  revert acc. induction pieces as [|p pieces IH]; intros acc; simpl.
  - by rewrite app_nil_r.
  - rewrite IH. by rewrite <- app_assoc.
Qed.

(** [parse_qsl] reads the pieces between the [&] in order. *)
Lemma parse_qsl_pieces qs :
  parse_qsl unquote qs = flat_map (parse_field unquote) (str.split "&" qs).
Proof.
  unfold parse_qsl. destruct qs as [|c qs]; [done|].
  by rewrite foldl_parse_field.
Qed.

Lemma parse_field_blank n :
  mem "=" n = false → parse_field unquote (n +:+ "=") = [].
Proof.
  intros Hn. unfold parse_field. rewrite split1_blank by done.
  by destruct n.
Qed.

Lemma parse_field_pair n v :
  mem "=" n = false → v ≠ "" →
  parse_field unquote (n +:+ "=" +:+ v)
  = [(unquote (str.replace_char "+" " " n), unquote (str.replace_char "+" " " v))].
Proof.
  intros Hn Hv. unfold parse_field. rewrite split1_pair by done.
  destruct v; [done|]. by destruct n.
Qed.

Lemma parse_qsl_concat pieces :
  Forall (λ p, mem "&" p = false) pieces →
  parse_qsl unquote (String.concat "&" pieces) = flat_map (parse_field unquote) pieces.
Proof.
  intros H. rewrite parse_qsl_pieces.
  destruct pieces as [|p pieces]; [done|]. by rewrite split_concat.
Qed.

Lemma foldl_add_pair pairs (acc : gmap string (list string)) key :
  foldl add_pair acc pairs !! key
  = match acc !! key, values key pairs with
    | Some l, vs => Some (l ++ vs)
    | None, [] => None
    | None, vs => Some vs
    end.
Proof.
  revert acc. induction pairs as [|[name value] pairs IH]; intros acc.
  - simpl. destruct (acc !! key); [by rewrite app_nil_r | done].
  - simpl. rewrite IH. destruct (String.eqb_spec name key) as [->|Hne].
    + destruct (acc !! key) as [l|] eqn:E.
      * rewrite lookup_insert_eq. by rewrite <- app_assoc.
      * by rewrite lookup_insert_eq.
    + destruct (acc !! name) as [l|] eqn:E; by rewrite lookup_insert_ne.
Qed.

Lemma parse_qs_lookup qs key :
  parse_qs unquote qs !! key
  = match values key (parse_qsl unquote qs) with
    | [] => None
    | vs => Some vs
    end.
Proof.
  unfold parse_qs. by rewrite foldl_add_pair, lookup_empty.
Qed.

(** No key of [parse_qs] has an empty list, so [v[0]] in [parse_post_data]
    never fails. *)
Lemma parse_qs_nonempty qs key l : parse_qs unquote qs !! key = Some l → l ≠ [].
Proof.
  rewrite parse_qs_lookup. destruct (values _ _); by intros [= <-].
Qed.

Lemma parse_post_data_lookup environ key :
  parse_post_data unquote environ !! key
  = first_value key (parse_qsl unquote (request_body environ)).
Proof.
  unfold parse_post_data. rewrite lookup_fmap, parse_qs_lookup, first_value_values.
  by destruct (values _ _).
Qed.

(** C10. The value that [parse_post_data] keeps for a field is that of the
    first piece of the body, in order, that names the field and has a
    non-blank value: after a piece [name=value], whatever pieces follow, the
    field reads [value] unless an earlier piece gave it one.  A piece [name=]
    with a blank value adds nothing: the dictionary is the one parsed from
    the body without that piece, the field is absent from it when no other
    piece gives it a value, and [get] then falls back to the empty string. *)
Theorem first_value_kept_blank_dropped :
  (∀ (environ : Environ) (key : string),
     parse_post_data unquote environ !! key
     = first_value key
         (flat_map (parse_field unquote) (str.split "&" (request_body environ))))
  ∧ (∀ (environ : Environ) (before after : list string) (name value : string),
       Forall (λ p, mem "&" p = false) (before ++ after) →
       mem "&" name = false → mem "=" name = false →
       mem "&" value = false → value ≠ "" →
       request_body environ
       = String.concat "&" (before ++ [name +:+ "=" +:+ value] ++ after) →
       let key := unquote (str.replace_char "+" " " name) in
       first_value key (flat_map (parse_field unquote) before) = None →
       parse_post_data unquote environ !! key
       = Some (unquote (str.replace_char "+" " " value)))
  ∧ (∀ (environ environ' : Environ) (before after : list string) (name : string),
       Forall (λ p, mem "&" p = false) (before ++ after) →
       mem "&" name = false → mem "=" name = false →
       request_body environ = String.concat "&" (before ++ [name +:+ "="] ++ after) →
       request_body environ' = String.concat "&" (before ++ after) →
       parse_post_data unquote environ = parse_post_data unquote environ')
  ∧ (∀ (environ : Environ) (key : string),
       first_value key
         (flat_map (parse_field unquote) (str.split "&" (request_body environ)))
       = None →
       parse_post_data unquote environ !! key = None
       ∧ get (parse_post_data unquote environ) key "" = "")
  ∧ (∀ environ : Environ,
       request_body environ = "comment=" →
       parse_post_data unquote environ = ∅).
Proof.
  assert (H1 : ∀ environ key,
     parse_post_data unquote environ !! key
     = first_value key
         (flat_map (parse_field unquote) (str.split "&" (request_body environ)))).
  { intros. by rewrite parse_post_data_lookup, parse_qsl_pieces. }
  split; [done|]. split; [|split; [|split]].
  - intros environ before after name value Hps Hn1 Hn2 Hv1 Hv2 Hb key Hfirst.
    rewrite parse_post_data_lookup, Hb.
    apply Forall_app in Hps as [Hbefore Hafter].
    rewrite parse_qsl_concat.
    + rewrite flat_map_app, first_value_app, Hfirst. simpl.
      rewrite parse_field_pair by done. simpl.
      fold key. by rewrite String.eqb_refl.
    + apply Forall_app. split; [done|]. apply Forall_cons. split; [|done].
      by rewrite !mem_app, Hn1, Hv1.
  - intros environ environ' before after name Hps Hn1 Hn2 Hb Hb'.
    apply map_eq. intros key. rewrite !parse_post_data_lookup, Hb, Hb'.
    apply Forall_app in Hps as [Hbefore Hafter].
    rewrite !parse_qsl_concat.
    + rewrite !flat_map_app. simpl. by rewrite parse_field_blank.
    + by apply Forall_app.
    + apply Forall_app. split; [done|]. apply Forall_cons. split; [|done].
      by rewrite mem_app, Hn1.
  - intros environ key H. rewrite <- H1 in H. split; [done|].
    unfold get. by rewrite H.
  - intros environ Hb. apply map_eq. intros key.
    by rewrite H1, Hb, lookup_empty.
Qed.

End Form.

(** ** Replacing a placeholder *)

Lemma prefix_app old s : String.prefix old s = true ↔ ∃ rest, s = old +:+ rest.
Proof.
  revert s. induction old as [|c old IH]; intros s.
  - split; [intros _; by exists s | by destruct s].
  - destruct s as [|c' s]; simpl.
    + split; [done | by intros [rest ?]].
    + destruct (ascii_dec c c') as [->|Hne].
      * rewrite IH. split; intros [rest H]; exists rest.
        -- by rewrite H.
        -- rewrite append_cons in H. by injection H.
      * split; [done|]. intros [rest H]. rewrite append_cons in H.
        injection H as ??. congruence.
Qed.

Lemma replace_from_skip old new u v :
  str.replace_from old new (String.length u) (u +:+ v) = str.replace_from old new 0 v.
Proof.
  induction u as [|c u IH]; [reflexivity|]. rewrite append_cons. exact IH.
Qed.

Lemma count_from_skip sub u v :
  str.count_from sub (String.length u) (u +:+ v) = str.count_from sub 0 v.
Proof.
  induction u as [|c u IH]; [reflexivity|]. rewrite append_cons. exact IH.
Qed.

(** Nothing to replace where the text does not occur. *)
Lemma replace_from_absent old new s :
  str.count_from old 0 s = 0%nat → str.replace_from old new 0 s = s.
Proof.
  induction s as [|c s IH]; [done|].
  cbn [str.count_from str.replace_from].
  destruct (String.prefix old (String c s)); [done|].
  intros H. by rewrite IH.
Qed.

(** A text that occurs once is replaced where it stands. *)
Lemma replace_from_once c0 old' new s :
  let old := String c0 old' in
  str.count_from old 0 s = 1%nat →
  ∃ pre post,
    s = pre +:+ old +:+ post
    ∧ str.replace_from old new 0 s = pre +:+ new +:+ post.
Proof.
  intros old. induction s as [|c s IH]; [done|].
  cbn [str.count_from str.replace_from].
  destruct (String.prefix old (String c s)) eqn:E.
  - apply prefix_app in E as [rest E]. unfold old in E. rewrite append_cons in E.
    injection E as -> ->.
    replace (String.length old - 1)%nat with (String.length old')
      by (unfold old; simpl; lia).
    rewrite count_from_skip, replace_from_skip.
    intros [= H]. exists "", rest. split; [done|].
    by rewrite (replace_from_absent _ _ _ H).
  - intros H. destruct (IH H) as (pre & post & -> & Hr).
    exists (String c pre), post. split; [done|]. by rewrite Hr.
Qed.

(** ** [render_template] *)

Lemma foldl_add_row acc results :
  foldl add_row acc results = acc +:+ join (row_block <$> results).
Proof.
  revert acc. induction results as [|row results IH]; intros acc.
  - simpl. by rewrite append_nil_r.
  - simpl. rewrite IH. unfold add_row. rewrite append_assoc. f_equal.
    unfold row_block, row_cells, join. simpl.
    by rewrite !append_assoc.
Qed.

(** C7. In a template text that holds the placeholder [{{ results_table }}]
    once (after the scalar substitutions), [render_template] puts, in the
    place of the placeholder, one block per record when there are records --
    as many blocks as records, each with the seven cells in their order --
    and the single row spanning seven columns when there is none.  The rest
    of the text is kept. *)
Theorem render_results_table (templates : string → option string)
    (template_name content : string) (context : list (string * value))
    (results : list Row.t) :
  templates template_name = Some content →
  lookup_key "results" context = Some (VList results) →
  str.count "{{ results_table }}" (foldl substitute content context) = 1%nat →
  ∃ (pre post : string) (blocks : list string),
    foldl substitute content context = pre +:+ "{{ results_table }}" +:+ post
    ∧ blocks = row_block <$> results
    ∧ length blocks = length results
    ∧ Forall (λ row, length (row_cells row) = 7%nat) results
    ∧ render_template templates template_name (Some context)
      = Ok (encode (pre +:+ (match results with
                             | [] => "<tr><td colspan='7'>Aucun enregistrement trouv"
                                     +:+ String "233" ".</td></tr>"
                             | _ :: _ => join blocks
                             end) +:+ post)).
Proof.
  intros Ht Hl Hc.
  unfold str.count in Hc. cbv iota in Hc.
  destruct (replace_from_once "{" "{ results_table }}"
              (match results with [] => no_records | _ => join (row_block <$> results) end)
              _ Hc) as (pre & post & Hs & Hr).
  exists pre, post, (row_block <$> results).
  split; [done|]. split; [done|]. split; [by rewrite length_fmap|].
  split; [by apply Forall_forall|].
  unfold render_template. rewrite Ht. simpl. rewrite Hl.
  destruct results as [|row results].
  - unfold str.replace. by rewrite Hr.
  - rewrite foldl_add_row. change ("" +:+ ?x) with x.
    unfold str.replace. by rewrite Hr.
Qed.

(** ** [strip] and substrings *)

Lemma contains_spec sub s :
  contains sub s = true ↔ ∃ a b, s = a +:+ sub +:+ b.
Proof.
  induction s as [|c s IH].
  - cbn [contains]. rewrite orb_false_r, prefix_app. split.
    + intros [rest H]. by exists "", rest.
    + intros (a & b & H). destruct a; [by exists b|done].
  - cbn [contains]. rewrite orb_true_iff, prefix_app, IH. split.
    + intros [[rest H]|(a & b & H)].
      * by exists "", rest.
      * exists (String c a), b. by rewrite H.
    + intros (a & b & H). destruct a as [|c' a].
      * left. by exists b.
      * right. rewrite append_cons in H. injection H as _ H. by exists a, b.
Qed.




(** ** [LIKE] *)








(** ** [ORDER BY] *)

Lemma compare_refl s : String.compare s s = Eq.
Proof.
  induction s as [|c s IH]; [done|]. simpl.
  unfold Ascii.compare. by rewrite N.compare_refl.
Qed.

Lemma order_by_spec r1 r2 : sqlite3.order_by r1 r2 ↔ date_desc_start_asc r1 r2.
Proof.
  unfold sqlite3.order_by, date_desc_start_asc, String.ltb.
  rewrite (String.compare_antisym (Row.date r2) (Row.date r1)).
  destruct (String.compare (Row.date r1) (Row.date r2)) eqn:E; simpl.
  - apply String.compare_eq_iff in E. split; [by right | by intros [?|[_ ?]]].
  - split; [done|]. intros [?|[H ?]]; [done|].
    rewrite H, compare_refl in E. done.
  - split; [by left | done].
Qed.

Lemma compare_Lt_trans s1 s2 s3 :
  String.compare s1 s2 = Lt → String.compare s2 s3 = Lt → String.compare s1 s3 = Lt.
Proof.
  intros H1 H2.
  assert (Hle : String.le s1 s3).
  { trans s2; unfold String.le, String.leb; [by rewrite H1 | by rewrite H2]. }
  unfold String.le, String.leb in Hle.
  destruct (String.compare s1 s3) eqn:E; [|done|done].
  apply String.compare_eq_iff in E as ->.
  rewrite String.compare_antisym, H2 in H1. done.
Qed.

#[global] Instance order_by_total : Total sqlite3.order_by.
Proof.
  intros r1 r2. unfold sqlite3.order_by.
  rewrite (String.compare_antisym (Row.date r2) (Row.date r1)).
  destruct (String.compare (Row.date r1) (Row.date r2)); simpl; auto.
  apply String.leb_total.
Qed.

#[global] Instance order_by_trans : Transitive sqlite3.order_by.
Proof.
  intros r1 r2 r3. rewrite !order_by_spec. unfold date_desc_start_asc, String.ltb.
  intros [H1|[E1 H1]] [H2|[E2 H2]].
  - left. destruct (String.compare (Row.date r2) (Row.date r1)) eqn:E12; [done| |done].
    destruct (String.compare (Row.date r3) (Row.date r2)) eqn:E23; [done| |done].
    by rewrite (compare_Lt_trans _ _ _ E23 E12).
  - left. by rewrite <- E2.
  - left. by rewrite E1.
  - right. split; [congruence|].
    assert (String.le (Row.start_time r1) (Row.start_time r3)) as H.
    { trans (Row.start_time r2); unfold String.le; by apply Is_true_true. }
    by apply Is_true_true in H.
Qed.

(** ** The search *)

Lemma filter_all {A} (P : A → Prop) `{∀ x, Decision (P x)} (l : list A) :
  (∀ x, P x) → filter P l = l.
Proof.
  intros HP. induction l as [|x l IH]; [done|].
  rewrite filter_cons_True by done. by rewrite IH.
Qed.


Section Search.

Variable unquote : string → string.
Variable templates : string → option string.

Lemma search_results environ (t : Table) :
  let form := parse_post_data unquote environ in
  let employee_name := str.strip (get form "employee_name" "") in
  let date := str.strip (get form "date" "") in
  ∃ results : list Row.t,
    search unquote environ (Some t) = Ok results
    ∧ StronglySorted sqlite3.order_by results
    ∧ (∀ row, row ∈ results ↔ row ∈ rows t ∧ matches employee_name date row)
    ∧ (employee_name = "" → date = "" → results ≡ₚ rows t).
Proof.
  intros form employee_name date. unfold search. fold form employee_name date.
  unfold matches.
  destruct employee_name as [|c1 n] eqn:En; destruct date as [|c2 d] eqn:Ed;
    cbn [app sqlite3.select]; eexists; (split; [reflexivity|]);
    (split; [apply StronglySorted_merge_sort; apply _|]); split.
  - intros row. rewrite merge_sort_Permutation, list_elem_of_filter. simpl.
    intuition.
  - intros _ _. rewrite merge_sort_Permutation. by rewrite filter_all.
  - intros row. rewrite merge_sort_Permutation, list_elem_of_filter.
    cbn [forallb sqlite3.holds]. rewrite andb_true_r, String.eqb_eq.
    intuition discriminate.
  - done.
  - intros row. rewrite merge_sort_Permutation, list_elem_of_filter.
    cbn [forallb sqlite3.holds]. rewrite andb_true_r.
    intuition discriminate.
  - done.
  - intros row. rewrite merge_sort_Permutation, list_elem_of_filter.
    cbn [forallb sqlite3.holds]. rewrite andb_true_r, andb_true_iff, String.eqb_eq.
    intuition discriminate.
  - done.
Qed.

Lemma application_search environ db :
  path_of environ = "/search" → method_of environ = "POST" →
  ∃ (t : Table) (results : list Row.t),
    init_db db = Some t ∧ rows t = rows_of db
    ∧ search unquote environ (Some t) = Ok results
    ∧ application unquote templates environ db
      = (init_db db,
         html (render_template templates "search.html"
                 (Some [("results", VList results)]))).
Proof.
  intros Hp Hm. destruct (init_db_Some db) as (t & Ht & Hrows).
  destruct (search_results environ t) as (results & Hs & _).
  exists t, results. split; [done|]. split; [done|]. split; [done|].
  rewrite application_post_search by done. by rewrite Ht, Hs.
Qed.




End Search.

(** * Examples *)

Example strip_example : str.strip "  Bob Martin " = "Bob Martin".
Proof. reflexivity. Qed.

Example split_example : str.split "&" "a=1&&b=2&" = ["a=1"; ""; "b=2"; ""].
Proof. reflexivity. Qed.

Example replace_example : str.replace "aa" "b" "aaaxaa" = "baxb".
Proof. reflexivity. Qed.

Example one_digit_example : compute_total_hours "9:5" "17:00" = Ok (198 # 25)%Q.
Proof. reflexivity. Qed.

Example hour_24_example : compute_total_hours "24:00" "09:20" = Raise ValueError.
Proof. reflexivity. Qed.

Example minute_60_example : compute_total_hours "09:00" "09:60" = Raise ValueError.
Proof. reflexivity. Qed.

Example float_str_example :
  float_str 8 = "8.0" ∧ float_str (833 # 100) = "8.33" ∧ float_str (1 # 50) = "0.02".
Proof. by vm_compute. Qed.

Example like_example :
  sqlite3.like "%ALI%" "Alice" = true
  ∧ sqlite3.like "%o_%" "Bob" = true
  ∧ sqlite3.like "%b" "Bob" = true
  ∧ sqlite3.like "%bo" "Bob" = false
  ∧ sqlite3.like (String "233" "") (String "201" "") = false.
Proof. by vm_compute. Qed.

Example parse_post_data_example :
  parse_post_data unquote_plain
    (POST "/" "employee_name=+Alice+&oops&comment=&comment=x+y&rotation=a&rotation=b")
  = {[ "employee_name" := " Alice "; "comment" := "x y"; "rotation" := "a" ]}.
Proof. by vm_compute. Qed.

Example requests_example :
  let db1 := (application unquote_plain two_templates
                (POST "/" "employee_name=+Alice+&date=2024-01-02&start_time=22:00&end_time=06:00&rotation=night")
                None).1 in
  let db2 := (application unquote_plain two_templates
                (POST "/" "employee_name=Bob&date=2024-01-03&start_time=09:00&end_time=17:20&rotation=day&comment=late")
                db1).1 in
  db2 = two_rows
  ∧ search unquote_plain (POST "/search" "") db2 = Ok [bob_row; alice_row]
  ∧ search unquote_plain (POST "/search" "employee_name=zed") db2 = Ok [].
Proof. by vm_compute. Qed.



Lemma malformed_time_aborts_witness :
  let environ :=
    POST "/" "employee_name=Bob&date=2024-01-03&start_time=25:00&end_time=17:00&rotation=day" in
  application unquote_plain two_templates environ two_rows
  = (two_rows, Raise ValueError).
Proof.
  intros environ.
  apply (malformed_time_aborts unquote_plain two_templates environ two_rows);
    [reflexivity | reflexivity | left; vm_compute; reflexivity].
Defined.

(** C3 as stated fails: the start time ["9:5"] and the end time ["17:0"] do
    not match [HH:MM], having one digit where the pattern has two, yet
    [strptime] reads them as 09:05 and 17:00.  No error aborts the request:
    it answers 303 and stores a third record, of 7.92 hours. *)
Lemma one_digit_time_stored :
  let environ :=
    POST "/" "employee_name=Bob&date=2024-01-03&start_time=9:5&end_time=17:0&rotation=day" in
  let form := parse_post_data unquote_plain environ in
  let after := application unquote_plain two_templates environ two_rows in
  path_of environ = "/" ∧ method_of environ = "POST"
  ∧ get form "start_time" "" = "9:5"
  ∧ get form "end_time" "" = "17:0"
  ∧ is_HH_MM (get form "start_time" "") = false
  ∧ is_HH_MM (get form "end_time" "") = false
  ∧ (∀ h m : Z, get form "start_time" "" ≠ HH_MM h m)
  ∧ after.2 = Ok {| status := "303 See Other";
                    headers := [("Location", "/")];
                    body := [] |}
  ∧ rows_of after.1
    = rows_of two_rows
      ++ [Row.mk 3 "Bob" "2024-01-03" "9:5" "17:0" "day" (198 # 25) ""]
  ∧ ¬ (is_HH_MM (get form "start_time" "") = false
       ∨ is_HH_MM (get form "end_time" "") = false →
       after.2 = Raise ValueError ∧ rows_of after.1 = rows_of two_rows).
Proof.
  intros environ form after.
  assert (Hstart : get form "start_time" "" = "9:5") by by vm_compute.
  assert (Hanswer : after.2 = Ok {| status := "303 See Other";
                                    headers := [("Location", "/")];
                                    body := [] |}) by by vm_compute.
  split; [done|]. split; [done|]. split; [exact Hstart|].
  split; [by vm_compute|]. split; [by vm_compute|]. split; [by vm_compute|].
  split; [intros h m; rewrite Hstart; unfold HH_MM; discriminate|].
  split; [exact Hanswer|]. split; [by vm_compute|].
  intros H. destruct H as [H _]; [left; by vm_compute|].
  rewrite Hanswer in H. discriminate.
Qed.



Lemma missing_fields_default_witness :
  ∃ row : Row.t,
    rows_of (application unquote_plain two_templates
               (POST "/" "start_time=09:00&end_time=17:00") two_rows).1
    = [alice_row; bob_row; row]
    ∧ Row.employee_name row = "" ∧ Row.comment row = "".
Proof.
  destruct (missing_fields_default unquote_plain two_templates
              (POST "/" "start_time=09:00&end_time=17:00") two_rows
              eq_refl eq_refl) as (_ & Hstore & _).
  destruct (Hstore 8%Q) as (row & Hrows & _ & _ & _ & _ & _ & _ & _ & _ & Hn & _ & _ & Hc).
  - by vm_compute.
  - exists row. split; [exact Hrows|]. split; [by apply Hn | by apply Hc].
Defined.

(** C5 as stated fails: without [start_time] the request stores no record,
    the empty string being no clock time. *)
Lemma missing_start_time_stores_nothing :
  let environ :=
    POST "/" "employee_name=Bob&date=2024-01-03&end_time=17:00&rotation=day&comment=x" in
  let db' := (application unquote_plain two_templates environ None).1 in
  parse_post_data unquote_plain environ !! "start_time" = None
  ∧ application unquote_plain two_templates environ None
    = (empty_table, Raise ValueError)
  ∧ rows_of db' = []
  ∧ ¬ (∃ row : Row.t, row ∈ rows_of db' ∧ Row.start_time row = "").
Proof.
  intros environ db'.
  assert (Hrows : rows_of db' = []) by by vm_compute.
  split; [by vm_compute|]. split; [by vm_compute|]. split; [done|].
  intros (row & Hin & _). rewrite Hrows in Hin. by apply elem_of_nil in Hin.
Qed.


Lemma render_results_table_witness :
  ∃ (pre post : string) (blocks : list string),
    length blocks = 2%nat
    ∧ render_template two_templates "search.html"
        (Some [("results", VList [bob_row; alice_row])])
      = Ok (encode (pre +:+ join blocks +:+ post)).
Proof.
  destruct (render_results_table two_templates "search.html"
              "<table>{{ results_table }}</table>"
              [("results", VList [bob_row; alice_row])] [bob_row; alice_row]
              eq_refl eq_refl eq_refl)
    as (pre & post & blocks & _ & _ & Hlen & _ & Hr).
  exists pre, post, blocks. split; [exact Hlen | exact Hr].
Defined.

Lemma total_hours_nonnegative_witness :
  let db := (application unquote_plain two_templates
               (POST "/" "start_time=22:00&end_time=06:00") None).1 in
  let row := Row.mk 1 "" "" "22:00" "06:00" "" 8 "" in
  (0 <= Row.total_hours row)%Q
  ∧ compute_total_hours (Row.start_time row) (Row.end_time row)
    = Ok (Row.total_hours row).
Proof.
  intros db row.
  apply (proj1 (proj2 (total_hours_nonnegative unquote_plain two_templates)) db).
  - apply reachable_step, reachable_init.
  - vm_compute. left.
Defined.

Lemma first_value_kept_blank_dropped_witness :
  parse_post_data unquote_plain (POST "/" "rotation=day&comment=&rotation=night")
  = parse_post_data unquote_plain (POST "/" "rotation=day&rotation=night")
  ∧ parse_post_data unquote_plain (POST "/" "rotation=day&comment=&rotation=night")
      !! "rotation" = Some "day".
Proof.
  split.
  - apply (proj1 (proj2 (proj2 (first_value_kept_blank_dropped unquote_plain)))
             _ _ ["rotation=day"] ["rotation=night"] "comment");
      first [reflexivity | repeat constructor].
  - by rewrite (proj1 (first_value_kept_blank_dropped unquote_plain)).
Defined.

(** * Further properties *)

(** ** The duration *)

Lemma clock_text_range s h m :
  clock_text s = Some (h, m) → 0 <= h <= 23 ∧ 0 <= m <= 59.
Proof.
  intros H%clock_text_Some.
  apply strptime_H_M_inv in H as (h' & m' & [= -> ->] & ? & ?). done.
Qed.

Lemma elapsed_elapsed_minutes h1 m1 h2 m2 :
  elapsed (datetime.mk 1900 1 1 h1 m1 0) (datetime.mk 1900 1 1 h2 m2 0)
  = 60 * elapsed_minutes h1 m1 h2 m2.
Proof.
  unfold elapsed, elapsed_minutes, clock. simpl.
  destruct (Z.ltb_spec (0 + m1 * 60 + h1 * 3600) (0 + m2 * 60 + h2 * 3600));
    destruct (Z.ltb_spec (60 * h1 + m1) (60 * h2 + m2)); lia.
Qed.

Lemma elapsed_minutes_range h1 m1 h2 m2 :
  0 <= h1 <= 23 → 0 <= m1 <= 59 → 0 <= h2 <= 23 → 0 <= m2 <= 59 →
  1 <= elapsed_minutes h1 m1 h2 m2 <= 1440.
Proof. unfold elapsed_minutes. intros. case_match; lia. Qed.

(** The integer within less than a half of [y] is the rounding of [y]. *)
Lemma round_half_even_unique (y : Q) (k : Z) :
  (Qabs (inject_Z k - y) < 1 # 2)%Q → round_half_even y = k.
Proof.
  intros [H1 H2]%Qabs_Qlt_condition.
  pose proof (round_half_even_near y) as [H3 H4]%Qabs_Qle_condition.
  set (r := round_half_even y) in *.
  assert (r < k + 1).
  { rewrite Zlt_Qlt, inject_Z_plus. change (inject_Z 1) with 1%Q. lra. }
  assert (k < r + 1).
  { rewrite Zlt_Qlt, inject_Z_plus. change (inject_Z 1) with 1%Q. lra. }
  lia.
Qed.

(** The hundredths of an hour in a whole number of minutes. *)
Lemma hundredths_of_minutes (m : Z) :
  round_half_even (inject_Z (60 * m) / 3600 * 100) = (10 * m + 3) `div` 6.
Proof.
  apply round_half_even_unique.
  set (k := (10 * m + 3) `div` 6).
  assert (Hk : 10 * m < 6 * k + 3 ∧ 6 * k < 10 * m + 3)
    by (unfold k; Z.div_mod_to_equations; lia).
  destruct Hk as [Hk1 Hk2].
  rewrite Zlt_Qlt in Hk1, Hk2.
  rewrite !inject_Z_plus, !inject_Z_mult in Hk1, Hk2.
  rewrite inject_Z_mult.
  change (inject_Z 6) with 6%Q in *. change (inject_Z 10) with 10%Q in *.
  change (inject_Z 60) with 60%Q. change (inject_Z 3) with 3%Q in *.
  unfold Qdiv. change (/ 3600)%Q with (1 # 3600)%Q.
  apply Qabs_Qlt_condition. split; lra.
Qed.

Lemma compute_total_hours_minutes s e h1 m1 h2 m2 :
  clock_text s = Some (h1, m1) → clock_text e = Some (h2, m2) →
  compute_total_hours s e
  = Ok (Qred (inject_Z ((10 * elapsed_minutes h1 m1 h2 m2 + 3) `div` 6) / 100)).
Proof.
  intros Hs He.
  rewrite (compute_total_hours_elapsed _ _ _ _
             (clock_text_Some _ _ _ Hs) (clock_text_Some _ _ _ He)).
  rewrite elapsed_elapsed_minutes. unfold round2.
  by rewrite hundredths_of_minutes.
Qed.

Lemma compute_total_hours_Ok_clock start_time end_time h :
  compute_total_hours start_time end_time = Ok h →
  ∃ h1 m1 h2 m2,
    clock_text start_time = Some (h1, m1) ∧ clock_text end_time = Some (h2, m2).
Proof.
  intros H.
  destruct (clock_text start_time) as [[h1 m1]|] eqn:Hs;
    [destruct (clock_text end_time) as [[h2 m2]|] eqn:He|].
  - eauto 10.
  - rewrite (compute_total_hours_malformed start_time end_time) in H
      by (right; by apply clock_text_None). done.
  - rewrite (compute_total_hours_malformed start_time end_time) in H
      by (left; by apply clock_text_None). done.
Qed.

(** X1. [compute_total_hours] returns a value exactly when both texts are
    clock times, and raises [ValueError] exactly when one of them is not; it
    raises nothing else: moving the end to the next day never fails. *)
Theorem compute_total_hours_outcome (start_time end_time : string) :
  ((∃ h : Q, compute_total_hours start_time end_time = Ok h)
   ↔ is_Some (clock_text start_time) ∧ is_Some (clock_text end_time))
  ∧ (compute_total_hours start_time end_time = Raise ValueError
     ↔ clock_text start_time = None ∨ clock_text end_time = None)
  ∧ (∀ e : exn, compute_total_hours start_time end_time = Raise e → e = ValueError).
Proof.
  destruct (clock_text start_time) as [[h1 m1]|] eqn:Hs;
    [destruct (clock_text end_time) as [[h2 m2]|] eqn:He|].
  - rewrite (compute_total_hours_minutes _ _ _ _ _ _ Hs He).
    split; [|split].
    + split; [by intros _ | intros _; eauto].
    + split; [done | by intros [|]].
    + done.
  - rewrite (compute_total_hours_malformed start_time end_time)
      by (right; by apply clock_text_None).
    split; [|split].
    + split; [by intros [? ?] | by intros [_ [? ?]]].
    + split; [by right | done].
    + by intros e [= <-].
  - rewrite (compute_total_hours_malformed start_time end_time)
      by (left; by apply clock_text_None).
    split; [|split].
    + split; [by intros [? ?] | by intros [[? ?] _]].
    + split; [by left | done].
    + by intros e [= <-].
Qed.

(** X2. The duration depends on the clock times only, not on how they are
    written: a leading zero of the hour or of the minute changes nothing,
    and a text that is no clock time fails whatever the other text is. *)
Theorem compute_total_hours_clock_only (start_time end_time start_time' end_time' : string) :
  clock_text start_time = clock_text start_time' →
  clock_text end_time = clock_text end_time' →
  compute_total_hours start_time end_time
  = compute_total_hours start_time' end_time'.
Proof.
  intros Hs He. unfold compute_total_hours.
  by rewrite !strptime_H_M_clock_text, Hs, He.
Qed.

(** X3. Rounding to two decimals loses no minute: sixty times the hours
    returned, rounded to the nearest integer, is the number of minutes from
    the start to the next occurrence of the end, between 1 and 1440. *)
Theorem total_hours_gives_minutes (start_time end_time : string) (h1 m1 h2 m2 : Z) :
  clock_text start_time = Some (h1, m1) →
  clock_text end_time = Some (h2, m2) →
  ∃ h : Q,
    compute_total_hours start_time end_time = Ok h
    ∧ round_half_even (h * 60) = elapsed_minutes h1 m1 h2 m2
    ∧ 1 <= elapsed_minutes h1 m1 h2 m2 <= 1440.
Proof.
  intros Hs He.
  destruct (clock_text_range _ _ _ Hs), (clock_text_range _ _ _ He).
  eexists. split; [by apply compute_total_hours_minutes|].
  split; [|by apply elapsed_minutes_range].
  set (m := elapsed_minutes h1 m1 h2 m2).
  apply round_half_even_unique. rewrite Qred_correct.
  set (k := (10 * m + 3) `div` 6).
  assert (Hk : 10 * m < 6 * k + 3 ∧ 6 * k < 10 * m + 3)
    by (unfold k; Z.div_mod_to_equations; lia).
  destruct Hk as [Hk1 Hk2].
  rewrite Zlt_Qlt in Hk1, Hk2.
  rewrite !inject_Z_plus, !inject_Z_mult in Hk1, Hk2.
  change (inject_Z 6) with 6%Q in *. change (inject_Z 10) with 10%Q in *.
  change (inject_Z 3) with 3%Q in *.
  unfold Qdiv. change (/ 100)%Q with (1 # 100)%Q.
  apply Qabs_Qlt_condition. split; lra.
Qed.

(** X4. For two different clock times, the hours from the first to the
    second and the hours from the second to the first add up to 24, in
    spite of the rounding. *)
Theorem total_hours_complement (start_time end_time : string) :
  is_Some (clock_text start_time) → is_Some (clock_text end_time) →
  clock_text start_time ≠ clock_text end_time →
  ∃ h h' : Q,
    compute_total_hours start_time end_time = Ok h
    ∧ compute_total_hours end_time start_time = Ok h'
    ∧ (h + h' == 24)%Q.
Proof.
  intros [[h1 m1] Hs] [[h2 m2] He] Hne.
  destruct (clock_text_range _ _ _ Hs), (clock_text_range _ _ _ He).
  do 2 eexists. split; [by apply compute_total_hours_minutes|].
  split; [by apply compute_total_hours_minutes|].
  rewrite !Qred_correct.
  assert (Hsum : (10 * elapsed_minutes h1 m1 h2 m2 + 3) `div` 6
                 + (10 * elapsed_minutes h2 m2 h1 m1 + 3) `div` 6 = 2400).
  { assert (60 * h1 + m1 ≠ 60 * h2 + m2).
    { intros Heq. apply Hne. rewrite Hs, He. do 2 f_equal; lia. }
    unfold elapsed_minutes.
    destruct (Z.ltb_spec (60 * h1 + m1) (60 * h2 + m2));
      destruct (Z.ltb_spec (60 * h2 + m2) (60 * h1 + m1)); try lia;
      Z.div_mod_to_equations; lia. }
  set (k := (10 * elapsed_minutes h1 m1 h2 m2 + 3) `div` 6) in *.
  set (k' := (10 * elapsed_minutes h2 m2 h1 m1 + 3) `div` 6) in *.
  assert (Hq : (inject_Z k + inject_Z k' == 2400)%Q).
  { rewrite <- inject_Z_plus, Hsum. reflexivity. }
  unfold Qdiv. change (/ 100)%Q with (1 # 100)%Q. lra.
Qed.

(** X5. The hours returned lie between 0.02 and 24; they are 24 exactly
    when start and end are the same clock time, and never 0. *)
Theorem total_hours_range (start_time end_time : string) (h : Q) :
  compute_total_hours start_time end_time = Ok h →
  (1 # 50 <= h <= 24)%Q
  ∧ ((h == 24)%Q ↔ clock_text start_time = clock_text end_time).
Proof.
  intros Hh.
  destruct (compute_total_hours_Ok_clock _ _ _ Hh) as (h1 & m1 & h2 & m2 & Hs & He).
  destruct (clock_text_range _ _ _ Hs), (clock_text_range _ _ _ He).
  rewrite (compute_total_hours_minutes _ _ _ _ _ _ Hs He) in Hh.
  injection Hh as <-. rewrite Qred_correct.
  pose proof (elapsed_minutes_range h1 m1 h2 m2) as Hm.
  set (m := elapsed_minutes h1 m1 h2 m2) in *.
  set (k := (10 * m + 3) `div` 6).
  assert (Hk : 2 <= k <= 2400) by (unfold k; Z.div_mod_to_equations; lia).
  assert (Hk24 : k = 2400 ↔ m = 1440) by (unfold k; Z.div_mod_to_equations; lia).
  destruct Hk as [Hk1 Hk2]. pose proof Hk2 as HkZ. rewrite Zle_Qle in Hk1, Hk2.
  change (inject_Z 2) with 2%Q in Hk1. change (inject_Z 2400) with 2400%Q in Hk2.
  unfold Qdiv. change (/ 100)%Q with (1 # 100)%Q.
  split; [split; lra|].
  rewrite Hs, He. split.
  - intros Hq. assert (Hge : 2400 <= k).
    { rewrite Zle_Qle. change (inject_Z 2400) with 2400%Q. lra. }
    assert (Heq : k = 2400) by lia. apply Hk24 in Heq.
    unfold m, elapsed_minutes in Heq.
    destruct (Z.ltb_spec (60 * h1 + m1) (60 * h2 + m2)); [lia|].
    do 2 f_equal; lia.
  - intros [= -> ->].
    assert (Hk' : k = 2400).
    { apply Hk24. unfold m, elapsed_minutes. rewrite Z.ltb_irrefl. lia. }
    rewrite Hk'. reflexivity.
Qed.

(** ** The handler and the stored rows *)

Lemma max_rowid_le (l : list Row.t) (n : Z) :
  0 <= n → Forall (λ r, Row.id r <= n) l → sqlite3.max_rowid l <= n.
Proof.
  intros Hn. unfold sqlite3.max_rowid.
  induction 1 as [|r l Hr Hl IH]; simpl; lia.
Qed.

Lemma max_rowid_app (l : list Row.t) (r : Row.t) :
  sqlite3.max_rowid (l ++ [r]) = Z.max (sqlite3.max_rowid l) (Z.max (Row.id r) 0).
Proof.
  unfold sqlite3.max_rowid. induction l as [|r' l IH]; simpl; [lia|].
  rewrite IH. lia.
Qed.

Lemma lstrip_starts_black s : starts_black (str.lstrip s).
Proof.
  induction s as [|c s IH]; [done|]. simpl.
  by destruct (str.isspace c) eqn:E.
Qed.

Lemma lstrip_id s : starts_black s → str.lstrip s = s.
Proof. destruct s as [|c s]; [done|]. simpl. by intros ->. Qed.

Lemma rstrip_starts_black s : starts_black s → starts_black (str.rstrip s).
Proof.
  destruct s as [|c s]; [done|]. simpl. intros Hc.
  destruct (str.rstrip s); [by rewrite Hc | done].
Qed.

Lemma rstrip_idempotent s : str.rstrip (str.rstrip s) = str.rstrip s.
Proof.
  induction s as [|c s IH]; [done|]. simpl.
  destruct (str.rstrip s) as [|c' r] eqn:E.
  - destruct (str.isspace c) eqn:Ec; [done|]. simpl. by rewrite Ec.
  - simpl in IH |- *. by rewrite IH.
Qed.

(** [strip] twice is [strip] once. *)
Lemma strip_idempotent s : str.strip (str.strip s) = str.strip s.
Proof.
  unfold str.strip.
  rewrite (lstrip_id (str.rstrip (str.lstrip s)))
    by apply rstrip_starts_black, lstrip_starts_black.
  apply rstrip_idempotent.
Qed.

Lemma upper_idempotent s : str.upper (str.upper s) = str.upper s.
Proof.
  induction s as [|c s IH]; [done|]. simpl. rewrite IH. f_equal.
  by destruct c as [[] [] [] [] [] [] [] []].
Qed.

Section Requests.

Variable unquote : string → string.
Variable templates : string → option string.

Lemma application_other environ db :
  ¬ (path_of environ = "/" ∧ method_of environ = "POST") →
  (application unquote templates environ db).1 = init_db db.
Proof.
  unfold path_of, method_of, application. intros H.
  destruct (String.eqb_spec (default "/" (PATH_INFO environ)) "/") as [Hp|Hp];
    destruct (String.eqb_spec
                (str.upper (default "GET" (REQUEST_METHOD environ))) "POST")
      as [Hm|Hm]; simpl.
  - by destruct H.
  - by repeat case_match.
  - by repeat case_match.
  - by repeat case_match.
Qed.

(** What a request does to the database: nothing beyond [init_db], or the
    insertion of the record of the form. *)
Lemma application_db environ db :
  (application unquote templates environ db).1 = init_db db
  ∨ ∃ (t : Table) (h : Q),
      let form := parse_post_data unquote environ in
      let rowid := Z.max (sequence t) (sqlite3.max_rowid (rows t)) + 1 in
      init_db db = Some t
      ∧ path_of environ = "/" ∧ method_of environ = "POST"
      ∧ compute_total_hours (get form "start_time" "") (get form "end_time" "") = Ok h
      ∧ application unquote templates environ db
        = (Some {| rows := rows t ++ [row_of_form rowid form h]; sequence := rowid |},
           Ok {| status := "303 See Other"; headers := [("Location", "/")];
                 body := [] |}).
Proof.
  destruct (decide (path_of environ = "/" ∧ method_of environ = "POST"))
    as [[Hp Hm]|Hno]; [|left; by apply application_other].
  rewrite (application_post_index unquote templates) by done.
  unfold post_index.
  destruct (compute_total_hours _ _) as [h|e] eqn:Hh; [|by left].
  destruct (init_db_Some db) as (t & Ht & _). rewrite Ht. simpl.
  right. by exists t, h.
Qed.

Lemma application_get_index environ db :
  path_of environ = "/" → method_of environ = "GET" →
  application unquote templates environ db
  = (init_db db, html (render_template templates "index.html" None)).
Proof. unfold path_of, method_of, application. by intros -> ->. Qed.

Lemma application_get_search environ db :
  path_of environ = "/search" → method_of environ = "GET" →
  application unquote templates environ db
  = (init_db db,
     html (render_template templates "search.html"
             (Some [("results", VList [])]))).
Proof. unfold path_of, method_of, application. by intros -> ->. Qed.

Lemma application_not_found environ db :
  ¬ ((path_of environ = "/" ∨ path_of environ = "/search")
     ∧ (method_of environ = "GET" ∨ method_of environ = "POST")) →
  application unquote templates environ db = (init_db db, Ok not_found).
Proof.
  unfold path_of, method_of, application. intros H.
  destruct (String.eqb_spec (default "/" (PATH_INFO environ)) "/");
    destruct (String.eqb_spec (default "/" (PATH_INFO environ)) "/search");
    destruct (String.eqb_spec
                (str.upper (default "GET" (REQUEST_METHOD environ))) "GET");
    destruct (String.eqb_spec
                (str.upper (default "GET" (REQUEST_METHOD environ))) "POST");
    simpl; try done; exfalso; apply H; auto.
Qed.

(** The page is rendered when its template exists; otherwise the request
    ends with [FileNotFoundError]. *)
Lemma html_render name (l : option (list Row.t)) :
  let context := (λ l, [("results", VList l)]) <$> l in
  (∃ page, templates name = Some page
           ∧ ∃ b, html (render_template templates name context)
                  = Ok {| status := "200 OK";
                          headers := [("Content-Type", "text/html; charset=utf-8")];
                          body := b |})
  ∨ (templates name = None
     ∧ html (render_template templates name context) = Raise FileNotFoundError).
Proof.
  unfold render_template. destruct (templates name) as [page|]; [left|by right].
  exists page. split; [done|].
  destruct l as [[|row l]|]; simpl; eauto.
Qed.

(** X6. After any request the table exists.  A request other than
    [POST /] -- a page, a search, an unknown route -- leaves the database as
    schema initialisation alone leaves it: no row is added, changed or
    removed. *)
Theorem only_post_index_writes (environ : Environ) (db : Database) :
  is_Some (application unquote templates environ db).1
  ∧ (¬ (path_of environ = "/" ∧ method_of environ = "POST") →
     (application unquote templates environ db).1 = init_db db
     ∧ rows_of (application unquote templates environ db).1 = rows_of db).
Proof.
  split.
  - destruct (application_db environ db) as [->|(t & h & _ & _ & _ & _ & ->)].
    + destruct (init_db_Some db) as (t & -> & _). eauto.
    + simpl. eauto.
  - intros H. rewrite application_other by done.
    split; [done | apply rows_of_init_db].
Qed.

(** X7. The answer is 404 with the plain text [404 Not Found] exactly when
    the path is neither [/] nor [/search] or the method neither GET nor
    POST; no other request is answered so. *)
Theorem not_found_iff (environ : Environ) (db : Database) :
  (application unquote templates environ db).2 = Ok not_found
  ↔ ¬ ((path_of environ = "/" ∨ path_of environ = "/search")
       ∧ (method_of environ = "GET" ∨ method_of environ = "POST")).
Proof.
  split; [|intros H; by rewrite application_not_found].
  intros H [[Hp|Hp] [Hm|Hm]].
  - rewrite application_get_index in H by done. simpl in H.
    destruct (html_render "index.html" None) as [(? & _ & ? & E)|[_ E]];
      simpl in E; by rewrite E in H.
  - destruct (application_db environ db) as [E|(t & h & _ & _ & _ & _ & E)].
    + rewrite application_post_index in H by done.
      unfold post_index in H.
      destruct (compute_total_hours _ _); [|done].
      destruct (init_db_Some db) as (t & Ht & _). by rewrite Ht in H.
    + by rewrite E in H.
  - rewrite application_get_search in H by done. simpl in H.
    destruct (html_render "search.html" (Some [])) as [(? & _ & ? & E)|[_ E]];
      simpl in E; by rewrite E in H.
  - destruct (application_search unquote templates environ db Hp Hm)
      as (t & results & _ & _ & _ & E).
    rewrite E in H. simpl in H.
    destruct (html_render "search.html" (Some results)) as [(? & _ & ? & E')|[_ E']];
      simpl in E'; by rewrite E' in H.
Qed.

(** X8. The method is compared without regard to the case of its letters:
    a request and the same request with its method in upper case are
    handled alike. *)
Theorem method_case_insensitive (environ : Environ) (method : string) (db : Database) :
  application unquote templates (with_method environ method) db
  = application unquote templates (with_method environ (str.upper method)) db.
Proof.
  unfold application, post_index, search, parse_post_data. simpl.
  by rewrite upper_idempotent.
Qed.

Lemma max_rowid_nonneg (l : list Row.t) : 0 <= sqlite3.max_rowid l.
Proof. unfold sqlite3.max_rowid. induction l as [|r l IH]; simpl; lia. Qed.

(** X9. In every database that requests have produced, the identifiers of
    the rows are 1, 2, 3, ... in the order of insertion, and the counter of
    the table is the number of rows: identifiers are unique and grow with
    every insertion. *)
Theorem identifiers_consecutive (db : Database) (t : Table) :
  reachable unquote templates db → db = Some t →
  Row.id <$> rows t = Z.of_nat <$> seq 1 (length (rows t))
  ∧ sequence t = Z.of_nat (length (rows t))
  ∧ NoDup (Row.id <$> rows t).
Proof.
  intros Hr Hdb.
  assert (Hinv : Row.id <$> rows t = Z.of_nat <$> seq 1 (length (rows t))
                 ∧ sequence t = Z.of_nat (length (rows t))).
  { revert t Hdb. induction Hr as [|environ db Hr IH]; [done|].
    assert (Hinit : ∀ t, init_db db = Some t →
              Row.id <$> rows t = Z.of_nat <$> seq 1 (length (rows t))
              ∧ sequence t = Z.of_nat (length (rows t))).
    { intros t Ht. destruct db as [t0|]; simpl in Ht; injection Ht as <-; auto. }
    intros t'. destruct (application_db environ db)
      as [->|(t & h & Ht & _ & _ & _ & ->)]; [by apply Hinit|].
    simpl. intros [= <-]. simpl.
    destruct (Hinit t Ht) as [Hids Hseq].
    assert (Hmax : sqlite3.max_rowid (rows t) <= Z.of_nat (length (rows t))).
    { apply max_rowid_le; [lia|].
      apply (Forall_fmap Row.id (λ x, x <= Z.of_nat (length (rows t)))).
      rewrite Hids. apply Forall_fmap, Forall_forall.
      intros i Hi%elem_of_seq. simpl. lia. }
    rewrite length_app, fmap_app. simpl.
    rewrite Nat.add_1_r, seq_S, fmap_app, <- Hids. simpl.
    split; [do 2 f_equal; lia | lia]. }
  destruct Hinv as [Hids Hseq]. split; [done|]. split; [done|].
  rewrite Hids. apply NoDup_fmap_2; [apply _ | apply NoDup_seq].
Qed.

(** X10. In every database that requests have produced, the employee name
    and the comment of every row are trimmed: no white space at either end,
    whatever was submitted. *)
Theorem stored_names_trimmed (db : Database) (row : Row.t) :
  reachable unquote templates db → row ∈ rows_of db →
  str.strip (Row.employee_name row) = Row.employee_name row
  ∧ str.strip (Row.comment row) = Row.comment row.
Proof.
  intros Hr. revert row. induction Hr as [|environ db Hr IH]; [by intros ? ?%elem_of_nil|].
  intros row.
  destruct (application_db environ db) as [->|(t & h & Ht & _ & _ & _ & ->)].
  - rewrite rows_of_init_db. apply IH.
  - simpl. assert (Hrows : rows t = rows_of db).
    { destruct (init_db_Some db) as (t' & Ht' & ?). congruence. }
    rewrite Hrows.
    intros [Hin|Hin%list_elem_of_singleton]%elem_of_app; [by apply IH|].
    subst row. simpl. by rewrite !strip_idempotent.
Qed.

(** X11. Nothing makes a record unique: the same form submitted twice is
    stored twice, as two records that differ by their identifiers only, the
    second one more than the first. *)
Theorem resubmission_stores_twice (environ : Environ) (db : Database) (h : Q) :
  path_of environ = "/" → method_of environ = "POST" →
  let form := parse_post_data unquote environ in
  compute_total_hours (get form "start_time" "") (get form "end_time" "") = Ok h →
  let db' := (application unquote templates environ db).1 in
  ∃ rowid : Z,
    rows_of (application unquote templates environ db').1
    = rows_of db ++ [row_of_form rowid form h; row_of_form (rowid + 1) form h].
Proof.
  intros Hp Hm form Hh db'. unfold db'.
  rewrite !application_post_index by done.
  unfold post_index. fold form. rewrite Hh.
  destruct (init_db_Some db) as (t & -> & Ht). simpl.
  rewrite Ht.
  exists (Z.max (sequence t) (sqlite3.max_rowid (rows_of db)) + 1).
  rewrite <- app_assoc. simpl. unfold row_of_form. repeat f_equal.
  rewrite max_rowid_app. simpl.
  pose proof (max_rowid_nonneg (rows_of db)). lia.
Qed.

(** X13. [GET /search] runs no query: its page is the page of a search that
    finds nothing, whatever is stored, and nothing tells the two apart. *)
Theorem get_search_is_empty_search (environ environ' : Environ) (db db' : Database) :
  path_of environ = "/search" → method_of environ = "GET" →
  path_of environ' = "/search" → method_of environ' = "POST" →
  search unquote environ' (init_db db') = Ok [] →
  (application unquote templates environ db).2
  = (application unquote templates environ' db').2.
Proof.
  intros Hp Hm Hp' Hm' Hs.
  rewrite application_get_search by done.
  rewrite (application_post_search unquote templates) by done.
  by rewrite Hs.
Qed.

(** X14. [GET /] serves [index.html] as it is: no placeholder in it is
    touched, and neither the body of the request nor the database has a part
    in the answer.  Without the file the request ends with
    [FileNotFoundError], after the table was created. *)
Theorem get_index_verbatim (environ : Environ) (db : Database) :
  path_of environ = "/" → method_of environ = "GET" →
  application unquote templates environ db
  = (init_db db,
     match templates "index.html" with
     | Some content =>
         Ok {| status := "200 OK";
               headers := [("Content-Type", "text/html; charset=utf-8")];
               body := encode content |}
     | None => Raise FileNotFoundError
     end).
Proof.
  intros Hp Hm. rewrite application_get_index by done.
  unfold render_template. by destruct (templates "index.html").
Qed.

End Requests.

(** ** More on the search *)






Lemma lstrip_all_space s : all_space s = true → str.lstrip s = "".
Proof.
  induction s as [|c s IH]; [done|]. simpl.
  intros [-> ?]%andb_true_iff. auto.
Qed.

Lemma strip_all_space s : all_space s = true → str.strip s = "".
Proof. intros H. unfold str.strip. by rewrite lstrip_all_space. Qed.

Section MoreSearch.

Variable unquote : string → string.

(** The result holds the rows that meet the filters, each as often as it is
    stored. *)
Lemma search_permutation environ (t : Table) :
  ∃ results : list Row.t,
    search unquote environ (Some t) = Ok results
    ∧ results ≡ₚ filter (matches (trimmed unquote environ "employee_name")
                           (trimmed unquote environ "date")) (rows t).
Proof.
  unfold trimmed, search.
  set (employee_name := str.strip _). set (date := str.strip _).
  unfold matches.
  destruct employee_name as [|c1 n] eqn:En; destruct date as [|c2 d] eqn:Ed;
    cbn [app sqlite3.select]; eexists; (split; [reflexivity|]);
    rewrite merge_sort_Permutation;
    match goal with |- ?x ≡ₚ ?y => replace x with y; [done|] end;
    apply list_filter_iff; intros row;
    cbn [forallb sqlite3.holds]; rewrite ?andb_true_r, ?andb_true_iff, ?String.eqb_eq;
    intuition discriminate.
Qed.




(** X18. A filter of white space only is no filter: when both fields hold
    nothing but white space, the search returns every stored row. *)
Theorem blank_filters_return_all (environ : Environ) (db : Database) :
  let form := parse_post_data unquote environ in
  all_space (get form "employee_name" "") = true →
  all_space (get form "date" "") = true →
  ∃ results : list Row.t,
    search unquote environ (init_db db) = Ok results
    ∧ results ≡ₚ rows_of db.
Proof.
  intros form Hn Hd.
  destruct (init_db_Some db) as (t & -> & Ht).
  destruct (search_permutation environ t) as (results & Hs & Hperm).
  exists results. split; [done|].
  rewrite Hperm, Ht. unfold trimmed. fold form.
  rewrite (strip_all_space _ Hn), (strip_all_space _ Hd).
  rewrite filter_all; [done|]. intros row. by split; left.
Qed.

End MoreSearch.

(** ** More on [render_template] *)

Lemma prefix_head c0 old c s :
  c ≠ c0 → String.prefix (String c0 old) (String c s) = false.
Proof. intros H. simpl. by destruct (ascii_dec c0 c) as [->|]. Qed.

(** Nothing is replaced in a text without the first character of what is
    looked for. *)
Lemma replace_from_no_head c0 old new s :
  mem c0 s = false → str.replace_from (String c0 old) new 0 s = s.
Proof.
  induction s as [|c s IH]; [done|]. cbn [mem str.replace_from].
  intros [Hc Hs]%orb_false_iff. apply Ascii.eqb_neq in Hc.
  rewrite prefix_head by done. by rewrite IH.
Qed.

Lemma replace_from_at c0 old new pre post :
  mem c0 pre = false →
  str.replace_from (String c0 old) new 0 (pre +:+ String c0 old +:+ post)
  = pre +:+ new +:+ str.replace_from (String c0 old) new 0 post.
Proof.
  induction pre as [|c pre IH].
  - intros _. change ("" +:+ ?x) with x. rewrite append_cons.
    cbn [str.replace_from].
    assert (String.prefix (String c0 old) (String c0 (old +:+ post)) = true) as ->.
    { apply prefix_app. by exists post. }
    replace (String.length (String c0 old) - 1)%nat with (String.length old)
      by (simpl; lia).
    by rewrite replace_from_skip.
  - cbn [mem]. intros [Hc Hs]%orb_false_iff. apply Ascii.eqb_neq in Hc.
    rewrite !(append_cons c pre). cbn [str.replace_from].
    rewrite prefix_head by done. by rewrite IH.
Qed.

(** X19. A scalar entry of the context is put where its placeholder
    [{{ key }}] stands: in a template that holds the placeholder once, the
    text before and after it is kept and the value is inserted as it is,
    without any escaping. *)
Theorem render_scalar (templates : string → option string)
    (template_name content key v : string) :
  templates template_name = Some content →
  key ≠ "results" →
  str.count ("{{ " +:+ key +:+ " }}") content = 1%nat →
  ∃ pre post : string,
    content = pre +:+ ("{{ " +:+ key +:+ " }}") +:+ post
    ∧ render_template templates template_name (Some [(key, VStr v)])
      = Ok (encode (pre +:+ v +:+ post)).
Proof.
  intros Ht Hk Hc.
  change ("{{ " +:+ key +:+ " }}")
    with (String "{" (String "{" (String " " (key +:+ " }}")))) in *.
  unfold str.count in Hc. cbv iota in Hc.
  destruct (replace_from_once _ _ v _ Hc) as (pre & post & Hs & Hr).
  exists pre, post. split; [done|].
  unfold render_template. rewrite Ht. simpl.
  apply String.eqb_neq in Hk. rewrite Hk. simpl.
  change ("{{ " +:+ key +:+ " }}")
    with (String "{" (String "{" (String " " (key +:+ " }}")))).
  unfold str.replace. by rewrite Hr.
Qed.

(** X20. Values are scanned again: when the value of one key is the
    placeholder of a key that comes later in the context, the page shows the
    value of the later key in its place. *)
Theorem render_rescans_values (templates : string → option string)
    (template_name pre post key key' v : string) :
  templates template_name = Some (pre +:+ ("{{ " +:+ key +:+ " }}") +:+ post) →
  mem "{" pre = false → mem "{" post = false →
  key ≠ "results" → key' ≠ "results" →
  render_template templates template_name
    (Some [(key, VStr ("{{ " +:+ key' +:+ " }}")); (key', VStr v)])
  = Ok (encode (pre +:+ v +:+ post)).
Proof.
  intros Ht Hpre Hpost Hk Hk'.
  unfold render_template. rewrite Ht. simpl.
  apply String.eqb_neq in Hk, Hk'. rewrite Hk, Hk'. simpl.
  change ("{{ " +:+ key +:+ " }}")
    with (String "{" (String "{" (String " " (key +:+ " }}")))).
  change ("{{ " +:+ key' +:+ " }}")
    with (String "{" (String "{" (String " " (key' +:+ " }}")))).
  unfold str.replace.
  rewrite replace_from_at, (replace_from_no_head _ _ _ post) by done.
  by rewrite replace_from_at, (replace_from_no_head _ _ _ post) by done.
Qed.

(** X21. A template without any brace is served as it is, whatever scalar
    entries and whatever list of results the context holds. *)
Theorem render_without_braces (templates : string → option string)
    (template_name content : string) (context : list (string * value)) :
  templates template_name = Some content →
  mem "{" content = false →
  (∀ (c : ascii) (s : string),
     lookup_key "results" context ≠ Some (VStr (String c s))) →
  render_template templates template_name (Some context) = Ok (encode content).
Proof.
  intros Ht Hc Hres.
  assert (Hfold : foldl substitute content context = content).
  { clear Hres. induction context as [|[key [v|l]] context IH]; simpl; [done| |done].
    change ("{{ " +:+ key +:+ " }}")
      with (String "{" (String "{" (String " " (key +:+ " }}")))).
    unfold str.replace. by rewrite replace_from_no_head. }
  unfold render_template. rewrite Ht. simpl. rewrite Hfold.
  destruct (lookup_key "results" context) as [[[|c s]|[|row l]]|] eqn:E; simpl;
    try done.
  - unfold str.replace. simpl. by rewrite (replace_from_no_head "{").
  - by destruct (Hres c s).
  - unfold str.replace. simpl. by rewrite (replace_from_no_head "{").
  - unfold str.replace. simpl. by rewrite (replace_from_no_head "{").
Qed.

(** ** More on the form *)

Lemma split_not_nil sep s : str.split sep s ≠ [].
Proof.
  destruct s as [|c s]; [done|]. simpl.
  destruct (Ascii.eqb c sep); [done|]. by destruct (str.split sep s).
Qed.

Lemma split_append sep s t :
  str.split sep (s +:+ String sep t) = str.split sep s ++ str.split sep t.
Proof.
  induction s as [|c s IH].
  - change ("" +:+ ?x) with x. cbn [str.split]. rewrite Ascii.eqb_refl.
    reflexivity.
  - rewrite append_cons. cbn [str.split]. rewrite IH.
    destruct (Ascii.eqb c sep); [done|].
    pose proof (split_not_nil sep s). by destruct (str.split sep s).
Qed.

Lemma split_no_eq s :
  mem "=" s = false → Forall (λ p, mem "=" p = false) (str.split "&" s).
Proof.
  induction s as [|c s IH]; [by repeat constructor|].
  cbn [mem str.split]. intros [Hc Hs]%orb_false_iff.
  specialize (IH Hs). destruct (Ascii.eqb c "&").
  - by constructor.
  - destruct (str.split "&" s) as [|p ps]; [by repeat constructor; simpl; rewrite Hc|].
    apply Forall_cons in IH as [Hp Hps].
    constructor; [|done]. simpl. by rewrite Hc.
Qed.

Lemma split1_no_sep sep s : mem sep s = false → str.split1 sep s = (s, None).
Proof.
  induction s as [|c s IH]; [done|]. cbn [mem str.split1].
  intros [Hc Hs]%orb_false_iff. rewrite Hc. by rewrite IH.
Qed.

Section MoreForm.

Variable unquote : string → string.

Lemma parse_field_no_eq p : mem "=" p = false → parse_field unquote p = [].
Proof.
  intros H. unfold parse_field. rewrite split1_no_sep by done. by destruct p.
Qed.

Lemma parse_qsl_no_eq s : mem "=" s = false → parse_qsl unquote s = [].
Proof.
  intros H%split_no_eq. rewrite parse_qsl_pieces.
  induction H as [|p ps Hp Hps IH]; [done|]. simpl.
  by rewrite parse_field_no_eq, IH.
Qed.

Lemma parse_qsl_append s t :
  parse_qsl unquote (s +:+ "&" +:+ t) = parse_qsl unquote s ++ parse_qsl unquote t.
Proof.
  rewrite !parse_qsl_pieces. change ("&" +:+ t) with (String "&" t).
  by rewrite split_append, flat_map_app.
Qed.

(** X22. Parsing goes piece by piece and the first value wins: the form of
    two bodies joined with [&] is the form of the first body, completed by
    the fields that only the second body gives.  So nothing appended to a
    body can change a field the body already sets. *)
Theorem parse_post_data_append (environ first second : Environ) :
  request_body environ = request_body first +:+ "&" +:+ request_body second →
  parse_post_data unquote environ
  = parse_post_data unquote first ∪ parse_post_data unquote second.
Proof.
  intros Hb. apply map_eq. intros key.
  rewrite lookup_union, !parse_post_data_lookup, Hb, parse_qsl_append.
  rewrite first_value_app.
  by destruct (first_value key _), (first_value key _).
Qed.

(** X23. Text without any [=] adds no field, wherever it stands: pieces
    that are bare names, or empty, are dropped, and the form is that of the
    body without them. *)
Theorem text_without_equals_ignored (environ environ' : Environ)
    (before junk after : string) :
  mem "=" junk = false →
  request_body environ = before +:+ "&" +:+ junk +:+ "&" +:+ after →
  request_body environ' = before +:+ "&" +:+ after →
  parse_post_data unquote environ = parse_post_data unquote environ'
  ∧ (∀ alone : Environ,
       request_body alone = junk → parse_post_data unquote alone = ∅).
Proof.
  intros Hj Hb Hb'. split.
  - apply map_eq. intros key.
    rewrite !parse_post_data_lookup, Hb, Hb', !parse_qsl_append.
    rewrite (parse_qsl_no_eq junk) by done. reflexivity.
  - intros alone Ha. apply map_eq. intros key.
    rewrite parse_post_data_lookup, Ha, lookup_empty.
    rewrite (parse_qsl_no_eq junk) by done. reflexivity.
Qed.

End MoreForm.

(** * Further examples *)

Lemma compute_total_hours_outcome_witness :
  compute_total_hours "25:00" "17:00" = Raise ValueError.
Proof.
  apply (proj2 (proj1 (proj2 (compute_total_hours_outcome "25:00" "17:00")))).
  by left.
Defined.

Lemma compute_total_hours_clock_only_witness :
  compute_total_hours "9:5" "17:00" = compute_total_hours "09:05" "17:0".
Proof.
  apply (compute_total_hours_clock_only "9:5" "17:00" "09:05" "17:0");
    reflexivity.
Defined.

Lemma total_hours_gives_minutes_witness :
  ∃ h : Q,
    compute_total_hours "22:15" "06:00" = Ok h
    ∧ round_half_even (h * 60) = 465.
Proof.
  destruct (total_hours_gives_minutes "22:15" "06:00" 22 15 6 0 eq_refl eq_refl)
    as (h & Hh & Hm & _).
  exists h. split; [exact Hh | exact Hm].
Defined.

Lemma total_hours_complement_witness :
  ∃ h h' : Q,
    compute_total_hours "22:15" "06:00" = Ok h
    ∧ compute_total_hours "06:00" "22:15" = Ok h'
    ∧ (h + h' == 24)%Q.
Proof.
  apply (total_hours_complement "22:15" "06:00"); [by eexists | by eexists | done].
Defined.

Lemma total_hours_range_witness :
  (1 # 50 <= 31 # 4 <= 24)%Q.
Proof.
  apply (total_hours_range "22:15" "06:00" (31 # 4)). reflexivity.
Defined.

Lemma only_post_index_writes_witness :
  (application unquote_plain two_templates (POST "/search" "employee_name=Bob")
     two_rows).1 = two_rows.
Proof.
  apply (proj2 (only_post_index_writes unquote_plain two_templates
                  (POST "/search" "employee_name=Bob") two_rows)).
  by intros [? _].
Defined.

Lemma not_found_iff_witness :
  (application unquote_plain two_templates
     (with_method (GET "/") "PUT") two_rows).2 = Ok not_found.
Proof.
  apply (proj2 (not_found_iff unquote_plain two_templates
                  (with_method (GET "/") "PUT") two_rows)).
  by intros [_ [?|?]].
Defined.

Lemma identifiers_consecutive_witness :
  Row.id <$> rows two_rows_table = [1; 2]
  ∧ sequence two_rows_table = 2
  ∧ NoDup (Row.id <$> rows two_rows_table).
Proof.
  apply (identifiers_consecutive unquote_plain two_templates
           (application unquote_plain two_templates bob_request
              (application unquote_plain two_templates alice_request None).1).1
           two_rows_table).
  - apply reachable_step, reachable_step, reachable_init.
  - by vm_compute.
Defined.

Lemma stored_names_trimmed_witness :
  str.strip (Row.employee_name alice_row) = Row.employee_name alice_row
  ∧ str.strip (Row.comment alice_row) = Row.comment alice_row.
Proof.
  apply (stored_names_trimmed unquote_plain two_templates
           (application unquote_plain two_templates alice_request None).1
           alice_row).
  - apply reachable_step, reachable_init.
  - vm_compute. left.
Defined.

Lemma resubmission_stores_twice_witness :
  ∃ rowid : Z,
    rows_of (application unquote_plain two_templates bob_request two_rows).1
    = [alice_row;
       row_of_form rowid (parse_post_data unquote_plain bob_request) (833 # 100);
       row_of_form (rowid + 1) (parse_post_data unquote_plain bob_request) (833 # 100)].
Proof.
  destruct (resubmission_stores_twice unquote_plain two_templates bob_request
              (Some {| rows := [alice_row]; sequence := 1 |}) (833 # 100)
              eq_refl eq_refl)
    as (rowid & H); [by vm_compute|].
  exists rowid. exact H.
Defined.

Lemma get_search_is_empty_search_witness :
  (application unquote_plain two_templates (GET "/search") None).2
  = (application unquote_plain two_templates
       (POST "/search" "employee_name=zed") two_rows).2.
Proof.
  apply (get_search_is_empty_search unquote_plain two_templates
           (GET "/search") (POST "/search" "employee_name=zed") None two_rows);
    reflexivity.
Defined.

Lemma get_index_verbatim_witness :
  application unquote_plain two_templates (GET "/") two_rows
  = (two_rows,
     Ok {| status := "200 OK";
           headers := [("Content-Type", "text/html; charset=utf-8")];
           body := encode "<form method='post'></form>" |}).
Proof.
  apply (get_index_verbatim unquote_plain two_templates (GET "/") two_rows);
    reflexivity.
Defined.




Lemma blank_filters_return_all_witness :
  ∃ results : list Row.t,
    search unquote_plain (POST "/search" "employee_name=+++&date=+") two_rows
    = Ok results
    ∧ results ≡ₚ [alice_row; bob_row].
Proof.
  apply (blank_filters_return_all unquote_plain
           (POST "/search" "employee_name=+++&date=+") two_rows);
    by vm_compute.
Defined.

Lemma render_scalar_witness :
  ∃ pre post : string,
    render_template hello_templates "hello.html" (Some [("name", VStr "<b>Bob</b>")])
    = Ok (encode (pre +:+ "<b>Bob</b>" +:+ post)).
Proof.
  destruct (render_scalar hello_templates "hello.html" "<p>Hello {{ name }}!</p>"
              "name" "<b>Bob</b>" eq_refl)
    as (pre & post & _ & H); [done | reflexivity |].
  exists pre, post. exact H.
Defined.

Lemma render_rescans_values_witness :
  render_template hello_templates "hello.html"
    (Some [("name", VStr "{{ user }}"); ("user", VStr "Bob")])
  = Ok (encode "<p>Hello Bob!</p>").
Proof.
  apply (render_rescans_values hello_templates "hello.html" "<p>Hello " "!</p>"
           "name" "user" "Bob"); done.
Defined.

Lemma render_without_braces_witness :
  render_template two_templates "index.html"
    (Some [("name", VStr "Bob"); ("results", VList [alice_row])])
  = Ok (encode "<form method='post'></form>").
Proof.
  apply (render_without_braces two_templates "index.html"); [done | done |].
  intros c s. by vm_compute.
Defined.

Lemma parse_post_data_append_witness :
  parse_post_data unquote_plain (POST "/" "rotation=day&date=x&rotation=night&comment=y")
  = parse_post_data unquote_plain (POST "/" "rotation=day&date=x")
    ∪ parse_post_data unquote_plain (POST "/" "rotation=night&comment=y").
Proof.
  apply (parse_post_data_append unquote_plain
           (POST "/" "rotation=day&date=x&rotation=night&comment=y")
           (POST "/" "rotation=day&date=x")
           (POST "/" "rotation=night&comment=y")).
  reflexivity.
Defined.

Lemma text_without_equals_ignored_witness :
  parse_post_data unquote_plain (POST "/" "rotation=day&oops&&flag&date=x")
  = parse_post_data unquote_plain (POST "/" "rotation=day&date=x").
Proof.
  apply (proj1 (text_without_equals_ignored unquote_plain
                  (POST "/" "rotation=day&oops&&flag&date=x")
                  (POST "/" "rotation=day&date=x")
                  "rotation=day" "oops&&flag" "date=x"
                  eq_refl eq_refl eq_refl)).
Defined.
